(** * AiMonitor_FHE: the encrypted prediction registry and its decryption callbacks

    A shallow embedding of the Solidity contract [AiMonitor_FHE]
    (pragma ^0.8.24, so every arithmetic operation is checked and reverts
    on overflow), followed by the properties of its record registry and of
    its request/callback protocol.

    Contract storage is a record of finite maps read with the Solidity
    default (the all-zero value) at absent keys.  A function body is a
    computation in a small state-and-revert monad; a transaction runs one
    public function, and a revert discards every write of the body. *)

From Stdlib Require Import ZArith Lia.
From Stdlib.Strings Require Import Byte.
From stdpp Require Import gmap strings list fin_maps.

Local Open Scope string_scope.
Local Open Scope list_scope.
Local Open Scope Z_scope.

(** ** Machine integers and reverts *)

Definition uint_max (w : Z) : Z := 2 ^ w - 1.

Inductive Revert : Type :=
| ErrorString (reason : string)   (* require(cond, reason) *)
| Panic (code : Z)                (* 0x11: arithmetic overflow or underflow *)
| InvalidKMSSignatures            (* FHE.checkSignatures rejected the proof *)
| AbiDecodeRevert.                (* abi.decode on malformed data *)

Inductive result (A : Type) : Type :=
| Ok (a : A)
| Reverted (r : Revert).
Arguments Ok {A} a.
Arguments Reverted {A} r.

#[export] Instance result_ret : MRet result := fun A a => Ok a.
#[export] Instance result_bind : MBind result := fun A B f m =>
  match m with
  | Ok a => f a
  | Reverted r => Reverted r
  end.

Definition checked_add (w a b : Z) : result Z :=
  if a + b <=? uint_max w then Ok (a + b) else Reverted (Panic 17).

Definition checked_sub (a b : Z) : result Z :=
  if b <=? a then Ok (a - b) else Reverted (Panic 17).

Definition checked_mul (w a b : Z) : result Z :=
  if a * b <=? uint_max w then Ok (a * b) else Reverted (Panic 17).

Definition checked_div (a b : Z) : result Z :=
  if b =? 0 then Reverted (Panic 18) else Ok (a / b).

(** ** ABI decoding of the callback payload

    [abi.decode(cleartexts, (uint32, uint32, uint32))] reads three 32-byte
    big-endian words from the head of the data; it reverts when the data
    is shorter than 96 bytes or when a word does not fit in 32 bits. *)

Definition be_value (bs : list byte) : Z :=
  fold_left (fun acc b => acc * 256 + Z.of_N (Byte.to_N b)) bs 0.

Definition abi_word (k : nat) (data : list byte) : Z :=
  be_value (take 32 (drop (32 * k) data)).

Definition abi_decode_uint32x3 (data : list byte) : result (Z * Z * Z) :=
  if Z.of_nat (length data) <? 96 then Reverted AbiDecodeRevert
  else
    let a := abi_word 0 data in
    let b := abi_word 1 data in
    let c := abi_word 2 data in
    if (a <=? uint_max 32) && (b <=? uint_max 32) && (c <=? uint_max 32)
    then Ok (a, b, c)
    else Reverted AbiDecodeRevert.

(** ** The pure helpers of the contract *)

(** [calculatePerformanceScore]: all operands are [uint32]. *)
Definition calculatePerformanceScore (input prediction groundTruth : Z) : result Z :=
  error ← (if prediction >? groundTruth
           then checked_sub prediction groundTruth
           else checked_sub groundTruth prediction);
  scaled ← checked_mul 32 error 100;
  ratio ← checked_div scaled (if input >? 0 then input else 1);
  checked_sub 100 ratio.

Definition determineAlertLevel (score : Z) : string :=
  if score <? 50 then "Critical"
  else if score <? 70 then "Warning"
  else if score <? 85 then "Notice"
  else "Normal".

(** ** External collaborators

    The FHE library and the hash primitive are not part of the contract.
    Their operations are taken as an interface: ciphertext handles
    ([euint32], whose fresh storage value is [euint32_unset]), trivial
    encryption, homomorphic addition, the conversion of a handle to the
    [bytes32] sent to the decryption oracle, the verification of a
    decryption proof, and [keccak256]. *)

Class Collaborators : Type := {
  euint32 : Type;
  euint32_unset : euint32;
  FHE_asEuint32 : Z -> euint32;
  FHE_add : euint32 -> euint32 -> euint32;
  FHE_toBytes32 : euint32 -> Z;
  FHE_verifySignatures : Z -> list byte -> list byte -> bool;
  keccak256 : list byte -> Z
}.

Inductive Selector : Type :=
| processPerformanceAnalysis_selector
| decryptModelMetrics_selector.

(** What a transaction reads from outside the contract: the block
    timestamp and the identifier the decryption oracle hands back to
    [FHE.requestDecryption]. *)
Record TxEnv : Type := {
  block_timestamp : Z;
  oracle_requestId : Z
}.

Section Contract.
Context `{Collaborators}.

(** ** Storage *)

Record EncryptedPrediction : Type := {
  id : Z;
  encryptedInput : euint32;
  encryptedPrediction : euint32;
  encryptedGroundTruth : euint32;
  timestamp : Z;
  modelId : string
}.

Record PerformanceMetrics : Type := {
  encryptedAccuracy : euint32;
  encryptedDriftScore : euint32;
  encryptedErrorRate : euint32
}.

Record DecryptedAlert : Type := {
  performanceScore : Z;
  alertLevel : string;
  needsRetraining : bool;
  isRevealed : bool
}.

Record Storage : Type := {
  predictionCount : Z;
  predictions : gmap Z EncryptedPrediction;
  modelPerformance : gmap string PerformanceMetrics;
  performanceAlerts : gmap Z DecryptedAlert;
  requestToPredictionId : gmap Z Z;
  requestToModelId : gmap Z string;
  monitoredModels : list string
}.

Definition zero_prediction : EncryptedPrediction :=
  {| id := 0; encryptedInput := euint32_unset; encryptedPrediction := euint32_unset;
     encryptedGroundTruth := euint32_unset; timestamp := 0; modelId := "" |}.

Definition zero_metrics : PerformanceMetrics :=
  {| encryptedAccuracy := euint32_unset; encryptedDriftScore := euint32_unset;
     encryptedErrorRate := euint32_unset |}.

Definition zero_alert : DecryptedAlert :=
  {| performanceScore := 0; alertLevel := ""; needsRetraining := false;
     isRevealed := false |}.

(** Reading a mapping: an absent key holds the zero value. *)
Definition predictionAt (s : Storage) (i : Z) : EncryptedPrediction :=
  default zero_prediction (predictions s !! i).
Definition metricsAt (s : Storage) (m : string) : PerformanceMetrics :=
  default zero_metrics (modelPerformance s !! m).
Definition alertAt (s : Storage) (i : Z) : DecryptedAlert :=
  default zero_alert (performanceAlerts s !! i).
Definition requestToPredictionIdAt (s : Storage) (r : Z) : Z :=
  default 0 (requestToPredictionId s !! r).
Definition requestToModelIdAt (s : Storage) (r : Z) : string :=
  default "" (requestToModelId s !! r).

Definition initial : Storage :=
  {| predictionCount := 0; predictions := ∅; modelPerformance := ∅;
     performanceAlerts := ∅; requestToPredictionId := ∅;
     requestToModelId := ∅; monitoredModels := [] |}.

(** Writing one storage variable. *)
Definition set_predictionCount (v : Z) (s : Storage) : Storage :=
  {| predictionCount := v; predictions := predictions s;
     modelPerformance := modelPerformance s;
     performanceAlerts := performanceAlerts s;
     requestToPredictionId := requestToPredictionId s;
     requestToModelId := requestToModelId s;
     monitoredModels := monitoredModels s |}.

Definition set_prediction (i : Z) (v : EncryptedPrediction) (s : Storage) : Storage :=
  {| predictionCount := predictionCount s; predictions := <[i := v]> (predictions s);
     modelPerformance := modelPerformance s;
     performanceAlerts := performanceAlerts s;
     requestToPredictionId := requestToPredictionId s;
     requestToModelId := requestToModelId s;
     monitoredModels := monitoredModels s |}.

Definition set_metrics (m : string) (v : PerformanceMetrics) (s : Storage) : Storage :=
  {| predictionCount := predictionCount s; predictions := predictions s;
     modelPerformance := <[m := v]> (modelPerformance s);
     performanceAlerts := performanceAlerts s;
     requestToPredictionId := requestToPredictionId s;
     requestToModelId := requestToModelId s;
     monitoredModels := monitoredModels s |}.

Definition set_alert (i : Z) (v : DecryptedAlert) (s : Storage) : Storage :=
  {| predictionCount := predictionCount s; predictions := predictions s;
     modelPerformance := modelPerformance s;
     performanceAlerts := <[i := v]> (performanceAlerts s);
     requestToPredictionId := requestToPredictionId s;
     requestToModelId := requestToModelId s;
     monitoredModels := monitoredModels s |}.

Definition set_requestToPredictionId (r i : Z) (s : Storage) : Storage :=
  {| predictionCount := predictionCount s; predictions := predictions s;
     modelPerformance := modelPerformance s;
     performanceAlerts := performanceAlerts s;
     requestToPredictionId := <[r := i]> (requestToPredictionId s);
     requestToModelId := requestToModelId s;
     monitoredModels := monitoredModels s |}.

Definition set_requestToModelId (r : Z) (m : string) (s : Storage) : Storage :=
  {| predictionCount := predictionCount s; predictions := predictions s;
     modelPerformance := modelPerformance s;
     performanceAlerts := performanceAlerts s;
     requestToPredictionId := requestToPredictionId s;
     requestToModelId := <[r := m]> (requestToModelId s);
     monitoredModels := monitoredModels s |}.

Definition push_monitoredModel (m : string) (s : Storage) : Storage :=
  {| predictionCount := predictionCount s; predictions := predictions s;
     modelPerformance := modelPerformance s;
     performanceAlerts := performanceAlerts s;
     requestToPredictionId := requestToPredictionId s;
     requestToModelId := requestToModelId s;
     monitoredModels := monitoredModels s ++ [m] |}.

(** Writing one field of a [DecryptedAlert] held in storage. *)
Definition with_performanceScore (v : Z) (a : DecryptedAlert) : DecryptedAlert :=
  {| performanceScore := v; alertLevel := alertLevel a;
     needsRetraining := needsRetraining a; isRevealed := isRevealed a |}.
Definition with_alertLevel (v : string) (a : DecryptedAlert) : DecryptedAlert :=
  {| performanceScore := performanceScore a; alertLevel := v;
     needsRetraining := needsRetraining a; isRevealed := isRevealed a |}.
Definition with_needsRetraining (v : bool) (a : DecryptedAlert) : DecryptedAlert :=
  {| performanceScore := performanceScore a; alertLevel := alertLevel a;
     needsRetraining := v; isRevealed := isRevealed a |}.
Definition with_isRevealed (v : bool) (a : DecryptedAlert) : DecryptedAlert :=
  {| performanceScore := performanceScore a; alertLevel := alertLevel a;
     needsRetraining := needsRetraining a; isRevealed := v |}.

(** ** Events and outgoing requests *)

Inductive Effect : Type :=
| PredictionRecorded (id : Z) (modelId : string) (timestamp : Z)
| PerformanceAnalysisRequested (predictionId : Z)
| PerformanceAlertDecrypted (predictionId : Z)
| DecryptionRequested (ciphertexts : list Z) (callback : Selector) (requestId : Z)
| DecryptionFulfilled (requestId : Z).

(** ** The monad of function bodies *)

Definition M (A : Type) : Type :=
  TxEnv -> Storage -> result (A * Storage * list Effect).

#[export] Instance M_ret : MRet M := fun A a _ s => Ok (a, s, []).
#[export] Instance M_bind : MBind M := fun A B f m env s =>
  match m env s with
  | Ok (a, s1, l1) =>
      match f a env s1 with
      | Ok (b, s2, l2) => Ok (b, s2, l1 ++ l2)
      | Reverted r => Reverted r
      end
  | Reverted r => Reverted r
  end.

Definition gets {A : Type} (f : Storage -> A) : M A :=
  fun _ s => Ok (f s, s, []).
Definition modify (f : Storage -> Storage) : M unit :=
  fun _ s => Ok (tt, f s, []).
Definition emit (e : Effect) : M unit :=
  fun _ s => Ok (tt, s, [e]).
Definition lift {A : Type} (r : result A) : M A :=
  fun _ s =>
    match r with
    | Ok a => Ok (a, s, [])
    | Reverted e => Reverted e
    end.
Definition require (cond : bool) (reason : string) : M unit :=
  fun _ s => if cond then Ok (tt, s, []) else Reverted (ErrorString reason).
Definition now : M Z :=
  fun env s => Ok (block_timestamp env, s, []).

(** [FHE.requestDecryption]: hands the handles to the oracle and returns
    the request identifier the oracle chose. *)
Definition FHE_requestDecryption (ciphertexts : list Z) (callback : Selector) : M Z :=
  fun env s =>
    Ok (oracle_requestId env, s,
        [DecryptionRequested ciphertexts callback (oracle_requestId env)]).

(** [FHE.checkSignatures]: reverts unless the proof verifies; when it
    does, the library emits its DecryptionFulfilled event for the
    request. *)
Definition FHE_checkSignatures (requestId : Z) (cleartexts proof : list byte) : M unit :=
  fun _ s =>
    if FHE_verifySignatures requestId cleartexts proof
    then Ok (tt, s, [DecryptionFulfilled requestId])
    else Reverted InvalidKMSSignatures.

(** The modifier has an empty guard: its body is the function body. *)
Definition onlyModelOwner {A : Type} (modelId : string) (body : M A) : M A := body.

(** ** The functions of the contract *)

Fixpoint isModelMonitored_from (models : list string) (modelId : string) : bool :=
  match models with
  | [] => false
  | m :: rest =>
      if keccak256 (String.list_byte_of_string m) =? keccak256 (String.list_byte_of_string modelId)
      then true
      else isModelMonitored_from rest modelId
  end.

Definition isModelMonitored (modelId : string) : M bool :=
  gets (fun s => isModelMonitored_from (monitoredModels s) modelId).

Definition recordEncryptedPrediction (modelId : string)
    (input prediction groundTruth : euint32) : M unit :=
  onlyModelOwner modelId (
    count ← gets predictionCount;
    count' ← lift (checked_add 256 count 1);
    modify (set_predictionCount count');;
    newId ← gets predictionCount;
    time ← now;
    modify (set_prediction newId
              {| id := newId; encryptedInput := input;
                 encryptedPrediction := prediction;
                 encryptedGroundTruth := groundTruth;
                 timestamp := time; modelId := modelId |});;
    modify (set_alert newId
              {| performanceScore := 0; alertLevel := "";
                 needsRetraining := false; isRevealed := false |});;
    monitored ← isModelMonitored modelId;
    (if negb monitored then
       modify (push_monitoredModel modelId);;
       modify (set_metrics modelId
                 {| encryptedAccuracy := FHE_asEuint32 0;
                    encryptedDriftScore := FHE_asEuint32 0;
                    encryptedErrorRate := FHE_asEuint32 0 |})
     else mret tt);;
    emit (PredictionRecorded newId modelId time)).

Definition requestPerformanceAnalysis (predictionId : Z) : M unit :=
  owner ← gets (fun s => modelId (predictionAt s predictionId));
  onlyModelOwner owner (
    pred ← gets (fun s => predictionAt s predictionId);
    revealed ← gets (fun s => isRevealed (alertAt s predictionId));
    require (negb revealed) "Already analyzed";;
    let ciphertexts :=
      [FHE_toBytes32 (encryptedInput pred);
       FHE_toBytes32 (encryptedPrediction pred);
       FHE_toBytes32 (encryptedGroundTruth pred)] in
    reqId ← FHE_requestDecryption ciphertexts processPerformanceAnalysis_selector;
    modify (set_requestToPredictionId reqId predictionId);;
    emit (PerformanceAnalysisRequested predictionId)).

Definition processPerformanceAnalysis (requestId : Z) (cleartexts proof : list byte) : M unit :=
  predictionId ← gets (fun s => requestToPredictionIdAt s requestId);
  require (negb (predictionId =? 0)) "Invalid request";;
  revealed ← gets (fun s => isRevealed (alertAt s predictionId));
  require (negb revealed) "Already processed";;
  FHE_checkSignatures requestId cleartexts proof;;
  '(input, prediction, groundTruth) ← lift (abi_decode_uint32x3 cleartexts);
  score ← lift (calculatePerformanceScore input prediction groundTruth);
  modify (fun s => set_alert predictionId
                     (with_performanceScore score (alertAt s predictionId)) s);;
  stored ← gets (fun s => performanceScore (alertAt s predictionId));
  modify (fun s => set_alert predictionId
                     (with_alertLevel (determineAlertLevel stored) (alertAt s predictionId)) s);;
  stored' ← gets (fun s => performanceScore (alertAt s predictionId));
  modify (fun s => set_alert predictionId
                     (with_needsRetraining (stored' <? 60) (alertAt s predictionId)) s);;
  modify (fun s => set_alert predictionId
                     (with_isRevealed true (alertAt s predictionId)) s);;
  emit (PerformanceAlertDecrypted predictionId).

Definition updateModelMetrics (modelId : string) (accuracy drift errorRate : euint32) : M unit :=
  onlyModelOwner modelId (
    modify (fun s => set_metrics modelId
       {| encryptedAccuracy := FHE_add (encryptedAccuracy (metricsAt s modelId)) accuracy;
          encryptedDriftScore := encryptedDriftScore (metricsAt s modelId);
          encryptedErrorRate := encryptedErrorRate (metricsAt s modelId) |} s);;
    modify (fun s => set_metrics modelId
       {| encryptedAccuracy := encryptedAccuracy (metricsAt s modelId);
          encryptedDriftScore := FHE_add (encryptedDriftScore (metricsAt s modelId)) drift;
          encryptedErrorRate := encryptedErrorRate (metricsAt s modelId) |} s);;
    modify (fun s => set_metrics modelId
       {| encryptedAccuracy := encryptedAccuracy (metricsAt s modelId);
          encryptedDriftScore := encryptedDriftScore (metricsAt s modelId);
          encryptedErrorRate := FHE_add (encryptedErrorRate (metricsAt s modelId)) errorRate |} s)).

Definition requestModelMetricsDecryption (modelId : string) : M unit :=
  onlyModelOwner modelId (
    metrics ← gets (fun s => metricsAt s modelId);
    let ciphertexts :=
      [FHE_toBytes32 (encryptedAccuracy metrics);
       FHE_toBytes32 (encryptedDriftScore metrics);
       FHE_toBytes32 (encryptedErrorRate metrics)] in
    reqId ← FHE_requestDecryption ciphertexts decryptModelMetrics_selector;
    modify (set_requestToModelId reqId modelId)).

Definition decryptModelMetrics (requestId : Z) (cleartexts proof : list byte) : M unit :=
  modelId ← gets (fun s => requestToModelIdAt s requestId);
  require (0 <? Z.of_nat (length (String.list_byte_of_string modelId))) "Invalid request";;
  FHE_checkSignatures requestId cleartexts proof;;
  '(accuracy, drift, errorRate) ← lift (abi_decode_uint32x3 cleartexts);
  mret tt.

Definition getDecryptedAlert (predictionId : Z) : M (Z * string * bool * bool) :=
  a ← gets (fun s => alertAt s predictionId);
  mret (performanceScore a, alertLevel a, needsRetraining a, isRevealed a).

(** ** Transactions and traces *)

Inductive Call : Type :=
| RecordEncryptedPrediction (modelId : string) (input prediction groundTruth : euint32)
| RequestPerformanceAnalysis (predictionId : Z)
| ProcessPerformanceAnalysis (requestId : Z) (cleartexts proof : list byte)
| UpdateModelMetrics (modelId : string) (accuracy drift errorRate : euint32)
| RequestModelMetricsDecryption (modelId : string)
| DecryptModelMetrics (requestId : Z) (cleartexts proof : list byte).

Definition dispatch (c : Call) : M unit :=
  match c with
  | RecordEncryptedPrediction m i p g => recordEncryptedPrediction m i p g
  | RequestPerformanceAnalysis i => requestPerformanceAnalysis i
  | ProcessPerformanceAnalysis r c p => processPerformanceAnalysis r c p
  | UpdateModelMetrics m a d e => updateModelMetrics m a d e
  | RequestModelMetricsDecryption m => requestModelMetricsDecryption m
  | DecryptModelMetrics r c p => decryptModelMetrics r c p
  end.

(** A transaction commits the writes of a body that returns and keeps the
    storage as it was when the body reverts. *)
Definition transact (env : TxEnv) (c : Call) (s : Storage) : result (Storage * list Effect) :=
  match dispatch c env s with
  | Ok (_, s', log) => Ok (s', log)
  | Reverted r => Reverted r
  end.

Definition exec (env : TxEnv) (c : Call) (s : Storage) : Storage :=
  match transact env c s with
  | Ok (s', _) => s'
  | Reverted _ => s
  end.

Fixpoint run (tr : list (TxEnv * Call)) (s : Storage) : Storage :=
  match tr with
  | [] => s
  | (env, c) :: rest => run rest (exec env c s)
  end.

(** Scores stay within 0..100, and an unrevealed alert holds the zero
    values it was created with. *)
Definition alerts_wellformed (s : Storage) : Prop :=
  forall i,
    0 <= performanceScore (alertAt s i) <= 100 /\
    (isRevealed (alertAt s i) = false -> alertAt s i = zero_alert).

(** The effects of a trace, and the identifiers it hands out. *)
Definition effects_of (env : TxEnv) (c : Call) (s : Storage) : list Effect :=
  match transact env c s with
  | Ok (_, log) => log
  | Reverted _ => []
  end.

Fixpoint run_log (tr : list (TxEnv * Call)) (s : Storage) : list Effect :=
  match tr with
  | [] => []
  | (env, c) :: rest => effects_of env c s ++ run_log rest (exec env c s)
  end.

Definition recorded_id (e : Effect) : option Z :=
  match e with
  | PredictionRecorded i _ _ => Some i
  | _ => None
  end.

Definition recorded_ids (log : list Effect) : list Z := omap recorded_id log.

(** The models a trace has submitted records for. *)
Definition recorded_model (e : Effect) : option string :=
  match e with
  | PredictionRecorded _ m _ => Some m
  | _ => None
  end.

Definition recorded_models (log : list Effect) : list string := omap recorded_model log.

(** Whether a transaction stores a correlation for the request identifier
    [r]: the oracle answered [r] to an analysis request, or to a metrics
    request. *)
Definition issues_analysis_request (r : Z) (tx : TxEnv * Call) : bool :=
  match tx.2 with
  | RequestPerformanceAnalysis _ => oracle_requestId tx.1 =? r
  | _ => false
  end.

Definition issues_metrics_request (r : Z) (tx : TxEnv * Call) : bool :=
  match tx.2 with
  | RequestModelMetricsDecryption _ => oracle_requestId tx.1 =? r
  | _ => false
  end.

(** The two private helpers that look a model up by its hash. *)
Definition bytes32ToUint (b : Z) : Z := b.

Fixpoint getModelFromHash_from (models : list string) (hash : Z) : result string :=
  match models with
  | [] => Reverted (ErrorString "Model not found")
  | m :: rest =>
      if bytes32ToUint (keccak256 (String.list_byte_of_string m)) =? hash
      then Ok m
      else getModelFromHash_from rest hash
  end.

Definition getModelFromHash (hash : Z) : M string :=
  models ← gets monitoredModels;
  lift (getModelFromHash_from models hash).

(** The shape of the registry in the states the contract can reach:
    records sit exactly at the identifiers 1 .. predictionCount, each
    under its own identifier and with a monitored model; every monitored
    model is the model of some record; no two monitored models share a
    hash; and the alert slot 0 is never written. *)
Definition registry_wellformed (s : Storage) : Prop :=
  0 <= predictionCount s /\
  (forall i, 1 <= i <= predictionCount s ->
     exists p, predictions s !! i = Some p /\ id p = i /\
               isModelMonitored_from (monitoredModels s) (modelId p) = true) /\
  (forall i, i < 1 \/ predictionCount s < i -> predictions s !! i = None) /\
  (forall m, m ∈ monitoredModels s ->
     exists i, 1 <= i <= predictionCount s /\ modelId (predictionAt s i) = m) /\
  NoDup (map (fun m => keccak256 (String.list_byte_of_string m)) (monitoredModels s)) /\
  performanceAlerts s !! 0 = None.

(** A revealed alert carries the verdict of its own score. *)
Definition verdicts_consistent (s : Storage) : Prop :=
  forall i,
    isRevealed (alertAt s i) = true ->
    alertLevel (alertAt s i) = determineAlertLevel (performanceScore (alertAt s i)) /\
    needsRetraining (alertAt s i) = (performanceScore (alertAt s i) <? 60).

End Contract.

(** ** A transparent instance of the collaborators

    Used to evaluate the contract on concrete inputs: the handle of the
    plaintext [v] is [v + 1], the unset handle [0] reads as plaintext [0],
    a proof is the request identifier followed by the cleartexts, and the
    hash is an injective encoding of its input. *)

#[export] Instance byte_eq_decision : EqDecision byte := Byte.byte_eq_dec.

Definition byte_of_Z (z : Z) : byte :=
  match Byte.of_N (Z.to_N z) with
  | Some b => b
  | None => x00
  end.

Fixpoint be_bytes (n : nat) (v : Z) : list byte :=
  match n with
  | O => []
  | S k => be_bytes k (v / 256) ++ [byte_of_Z (v mod 256)]
  end.

Definition abi_encode_uint (v : Z) : list byte := be_bytes 32 v.

Definition abi_encode_triple (a b c : Z) : list byte :=
  abi_encode_uint a ++ abi_encode_uint b ++ abi_encode_uint c.

Module Reference.

Definition plain (h : Z) : Z := Z.max (h - 1) 0.
Definition handle (v : Z) : Z := v + 1.
Definition add (a b : Z) : Z := handle ((plain a + plain b) mod 2 ^ 32).
Definition sign (requestId : Z) (cleartexts : list byte) : list byte :=
  abi_encode_uint requestId ++ cleartexts.
Definition verify (requestId : Z) (cleartexts proof : list byte) : bool :=
  bool_decide (proof = sign requestId cleartexts).
Definition hash (bs : list byte) : Z := be_value (x01 :: bs).

#[export] Instance collaborators : Collaborators := {|
  euint32 := Z;
  euint32_unset := 0;
  FHE_asEuint32 := handle;
  FHE_add := add;
  FHE_toBytes32 := fun h => h;
  FHE_verifySignatures := verify;
  keccak256 := hash
|}.

Definition env (requestId : Z) : TxEnv :=
  {| block_timestamp := 1700000000; oracle_requestId := requestId |}.

(** The storage at deployment. *)
Definition start : Storage := initial.

(** One record of model "m" has been submitted. *)
Definition submitted : Storage :=
  exec (env 0) (RecordEncryptedPrediction "m" (handle 100) (handle 90) (handle 92)) initial.

(** Its analysis has been requested; the oracle answered request 7. *)
Definition requested : Storage :=
  exec (env 7) (RequestPerformanceAnalysis 1) submitted.

Definition cleartexts : list byte := abi_encode_triple 100 90 92.

(** The callback of request 7 has been processed. *)
Definition revealed : Storage :=
  exec (env 0) (ProcessPerformanceAnalysis 7 cleartexts (sign 7 cleartexts)) requested.

Definition history : list (TxEnv * Call) :=
  [(env 0, RecordEncryptedPrediction "m" (handle 100) (handle 90) (handle 92));
   (env 7, RequestPerformanceAnalysis 1);
   (env 0, ProcessPerformanceAnalysis 7 cleartexts (sign 7 cleartexts))].

(** Payloads whose error exceeds the input. *)
Definition overflowing : list byte := abi_encode_triple 0 5 0.
Definition borderline : list byte := abi_encode_triple 200 201 0.

Definition metrics_of (accuracy drift errorRate : Z) : PerformanceMetrics :=
  {| encryptedAccuracy := accuracy; encryptedDriftScore := drift;
     encryptedErrorRate := errorRate |}.

(** An update for a model that was never submitted. *)
Definition ghost_update : Call :=
  UpdateModelMetrics "ghost" (handle 5) (handle 6) (handle 7).

(** The aggregate of "m" has been requested; the oracle answered
    request 8. *)
Definition metrics_requested : Storage :=
  exec (env 8) (RequestModelMetricsDecryption "m") revealed.

Definition metrics_cleartexts : list byte := abi_encode_triple 3 2 1.

(** A later submission, of another model, and a request for it. *)
Definition second_submission : Call :=
  RecordEncryptedPrediction "n" (handle 10) (handle 80) (handle 70).

(** A further submission of the model "m". *)
Definition repeated_submission : Call :=
  RecordEncryptedPrediction "m" (handle 1) (handle 2) (handle 3).

(** A submission under the empty model identifier. *)
Definition empty_submission : Call :=
  RecordEncryptedPrediction "" (handle 1) (handle 2) (handle 3).

(** An analysis requested and completed for identifier 1 before any
    record is submitted. *)
Definition premature : list (TxEnv * Call) :=
  [(env 7, RequestPerformanceAnalysis 1);
   (env 0, ProcessPerformanceAnalysis 7 cleartexts (sign 7 cleartexts))].

Definition resubmitted : Storage :=
  exec (env 0) second_submission (run premature start).

(** Two requests, 7 and 8, pending for record 1, and then the callback
    of request 7. *)
Definition twice_requested : Storage :=
  exec (env 8) (RequestPerformanceAnalysis 1) requested.

Definition first_completed : Storage :=
  exec (env 0) (ProcessPerformanceAnalysis 7 cleartexts (sign 7 cleartexts))
    twice_requested.

(** Updates for "n", before it has a record, and for "m". *)
Definition early_update : Call :=
  UpdateModelMetrics "n" (handle 5) (handle 6) (handle 7).

Definition m_update : Call :=
  UpdateModelMetrics "m" (handle 1) (handle 2) (handle 3).

Definition later : list (TxEnv * Call) :=
  [(env 0, second_submission); (env 9, RequestPerformanceAnalysis 2)].

End Reference.

(** ** The dashboard's list of metrics

    The list view of [App.tsx]: the statistics counters, the page of the
    filtered list that is shown and the pagination controls.  The numbers
    involved are list lengths and page numbers, so JavaScript numbers are
    integers here; [Math.ceil(length / itemsPerPage)] is the integer
    ceiling, which the floating-point division computes exactly for every
    array length.  A metric is read through its status only. *)

Module Dashboard.

Section Dashboard.
Context {PerformanceMetric : Type} (status : PerformanceMetric -> string).

Definition normalCount (metrics : list PerformanceMetric) : nat :=
  length (List.filter (fun m => String.eqb (status m) "normal") metrics).
Definition warningCount (metrics : list PerformanceMetric) : nat :=
  length (List.filter (fun m => String.eqb (status m) "warning") metrics).
Definition criticalCount (metrics : list PerformanceMetric) : nat :=
  length (List.filter (fun m => String.eqb (status m) "critical") metrics).

(** [Array.prototype.slice(start, end)]: a negative index counts from the
    end, and both indices are clamped to the array. *)
Definition slice {A : Type} (l : list A) (start finish : Z) : list A :=
  let len := Z.of_nat (length l) in
  let from := if start <? 0 then Z.max (len + start) 0 else Z.min start len in
  let to := if finish <? 0 then Z.max (len + finish) 0 else Z.min finish len in
  take (Z.to_nat (to - from)) (drop (Z.to_nat from) l).

Definition itemsPerPage : Z := 5.

Definition indexOfLastItem (currentPage : Z) : Z := currentPage * itemsPerPage.
Definition indexOfFirstItem (currentPage : Z) : Z :=
  indexOfLastItem currentPage - itemsPerPage.

Definition currentMetrics (filteredMetrics : list PerformanceMetric) (currentPage : Z)
    : list PerformanceMetric :=
  slice filteredMetrics (indexOfFirstItem currentPage) (indexOfLastItem currentPage).

Definition totalPages (filteredMetrics : list PerformanceMetric) : Z :=
  (Z.of_nat (length filteredMetrics) + itemsPerPage - 1) / itemsPerPage.

(** What the list section renders. *)
Inductive MetricsList : Type :=
| NoMetrics
| Cards (shown : list PerformanceMetric) (pagination : bool).

Definition metricsList (filteredMetrics : list PerformanceMetric) (currentPage : Z)
    : MetricsList :=
  if Z.of_nat (length filteredMetrics) =? 0 then NoMetrics
  else Cards (currentMetrics filteredMetrics currentPage)
         (totalPages filteredMetrics >? 1).

(** The two pagination buttons: a disabled button does nothing. *)
Definition previous (currentPage : Z) : Z :=
  if currentPage =? 1 then currentPage else currentPage - 1.
Definition next (filteredMetrics : list PerformanceMetric) (currentPage : Z) : Z :=
  if currentPage =? totalPages filteredMetrics then currentPage else currentPage + 1.

End Dashboard.

End Dashboard.

(** * Properties *)

Section Equations.
Context `{Collaborators}.

Ltac unfold_body :=
  cbv [transact dispatch
       recordEncryptedPrediction requestPerformanceAnalysis
       processPerformanceAnalysis updateModelMetrics
       requestModelMetricsDecryption decryptModelMetrics isModelMonitored
       onlyModelOwner mbind M_bind mret M_ret
       gets modify emit lift require now
       FHE_requestDecryption FHE_checkSignatures].

(** The state a successful callback writes. *)
Lemma set_alert_twice i a b s : set_alert i b (set_alert i a s) = set_alert i b s.
Proof.
  unfold set_alert; simpl. f_equal. apply insert_insert_eq.
Qed.

Lemma alertAt_set_alert_eq i a s : alertAt (set_alert i a s) i = a.
Proof.
  unfold alertAt, set_alert; simpl. by rewrite lookup_insert_eq.
Qed.

Lemma alertAt_set_alert_ne i j a s : i <> j -> alertAt (set_alert i a s) j = alertAt s j.
Proof.
  intros Hne. unfold alertAt, set_alert; simpl. by rewrite lookup_insert_ne.
Qed.

Lemma processPerformanceAnalysis_eq env s requestId cleartexts proof :
  transact env (ProcessPerformanceAnalysis requestId cleartexts proof) s =
  let predictionId := requestToPredictionIdAt s requestId in
  if predictionId =? 0 then Reverted (ErrorString "Invalid request")
  else if isRevealed (alertAt s predictionId)
  then Reverted (ErrorString "Already processed")
  else if FHE_verifySignatures requestId cleartexts proof then
    match abi_decode_uint32x3 cleartexts with
    | Ok (input, prediction, groundTruth) =>
        match calculatePerformanceScore input prediction groundTruth with
        | Ok score =>
            Ok (set_alert predictionId
                  {| performanceScore := score;
                     alertLevel := determineAlertLevel score;
                     needsRetraining := score <? 60;
                     isRevealed := true |} s,
                [DecryptionFulfilled requestId;
                 PerformanceAlertDecrypted predictionId])
        | Reverted r => Reverted r
        end
    | Reverted r => Reverted r
    end
  else Reverted InvalidKMSSignatures.
Proof.
  unfold_body. cbv zeta.
  destruct (requestToPredictionIdAt s requestId =? 0); [done|]. simpl.
  destruct (isRevealed (alertAt s _)); [done|]. simpl.
  destruct (FHE_verifySignatures _ _ _); [|done].
  destruct (abi_decode_uint32x3 cleartexts) as [[[i p] g]|]; [|done].
  destruct (calculatePerformanceScore i p g) as [score|]; [|done].
  rewrite !alertAt_set_alert_eq, !set_alert_twice. done.
Qed.

Lemma recordEncryptedPrediction_eq env s m input prediction groundTruth :
  transact env (RecordEncryptedPrediction m input prediction groundTruth) s =
  if predictionCount s + 1 <=? uint_max 256 then
    let newId := predictionCount s + 1 in
    let s1 :=
      set_alert newId zero_alert
        (set_prediction newId
           {| id := newId; encryptedInput := input;
              encryptedPrediction := prediction;
              encryptedGroundTruth := groundTruth;
              timestamp := block_timestamp env; modelId := m |}
           (set_predictionCount newId s)) in
    Ok (if isModelMonitored_from (monitoredModels s) m then s1
        else set_metrics m
               {| encryptedAccuracy := FHE_asEuint32 0;
                  encryptedDriftScore := FHE_asEuint32 0;
                  encryptedErrorRate := FHE_asEuint32 0 |}
               (push_monitoredModel m s1),
        [PredictionRecorded newId m (block_timestamp env)])
  else Reverted (Panic 17).
Proof.
  unfold_body. unfold checked_add.
  destruct (predictionCount s + 1 <=? uint_max 256); [|done]. simpl.
  destruct (isModelMonitored_from (monitoredModels s) m); done.
Qed.

Lemma requestPerformanceAnalysis_eq env s predictionId :
  transact env (RequestPerformanceAnalysis predictionId) s =
  if isRevealed (alertAt s predictionId)
  then Reverted (ErrorString "Already analyzed")
  else
    let pred := predictionAt s predictionId in
    Ok (set_requestToPredictionId (oracle_requestId env) predictionId s,
        [DecryptionRequested
           [FHE_toBytes32 (encryptedInput pred);
            FHE_toBytes32 (encryptedPrediction pred);
            FHE_toBytes32 (encryptedGroundTruth pred)]
           processPerformanceAnalysis_selector (oracle_requestId env);
         PerformanceAnalysisRequested predictionId]).
Proof.
  unfold_body. destruct (isRevealed (alertAt s predictionId)); done.
Qed.

Lemma metricsAt_set_metrics_eq m v s : metricsAt (set_metrics m v s) m = v.
Proof.
  unfold metricsAt, set_metrics; simpl. by rewrite lookup_insert_eq.
Qed.

Lemma metricsAt_set_metrics_ne m m' v s :
  m <> m' -> metricsAt (set_metrics m v s) m' = metricsAt s m'.
Proof.
  intros Hne. unfold metricsAt, set_metrics; simpl. by rewrite lookup_insert_ne.
Qed.

Lemma set_metrics_twice m a b s : set_metrics m b (set_metrics m a s) = set_metrics m b s.
Proof.
  unfold set_metrics; simpl. f_equal. apply insert_insert_eq.
Qed.

Lemma updateModelMetrics_eq env s m accuracy drift errorRate :
  transact env (UpdateModelMetrics m accuracy drift errorRate) s =
  Ok (set_metrics m
        {| encryptedAccuracy := FHE_add (encryptedAccuracy (metricsAt s m)) accuracy;
           encryptedDriftScore := FHE_add (encryptedDriftScore (metricsAt s m)) drift;
           encryptedErrorRate := FHE_add (encryptedErrorRate (metricsAt s m)) errorRate |} s,
      []).
Proof.
  unfold_body. rewrite !metricsAt_set_metrics_eq, !set_metrics_twice. done.
Qed.

Lemma requestModelMetricsDecryption_eq env s m :
  transact env (RequestModelMetricsDecryption m) s =
  let metrics := metricsAt s m in
  Ok (set_requestToModelId (oracle_requestId env) m s,
      [DecryptionRequested
         [FHE_toBytes32 (encryptedAccuracy metrics);
          FHE_toBytes32 (encryptedDriftScore metrics);
          FHE_toBytes32 (encryptedErrorRate metrics)]
         decryptModelMetrics_selector (oracle_requestId env)]).
Proof. done. Qed.

Lemma decryptModelMetrics_eq env s requestId cleartexts proof :
  transact env (DecryptModelMetrics requestId cleartexts proof) s =
  if 0 <? Z.of_nat (length (String.list_byte_of_string (requestToModelIdAt s requestId)))
  then
    if FHE_verifySignatures requestId cleartexts proof then
      match abi_decode_uint32x3 cleartexts with
      | Ok _ => Ok (s, [DecryptionFulfilled requestId])
      | Reverted r => Reverted r
      end
    else Reverted InvalidKMSSignatures
  else Reverted (ErrorString "Invalid request").
Proof.
  unfold_body.
  destruct (0 <? _); [|done]. simpl.
  destruct (FHE_verifySignatures _ _ _); [|done].
  destruct (abi_decode_uint32x3 cleartexts) as [[[a d] e]|]; done.
Qed.

(** What a callback that returns has checked and written. *)
Lemma processPerformanceAnalysis_Ok env s requestId cleartexts proof s' log :
  transact env (ProcessPerformanceAnalysis requestId cleartexts proof) s = Ok (s', log) ->
  exists input prediction groundTruth score,
    requestToPredictionIdAt s requestId <> 0 /\
    isRevealed (alertAt s (requestToPredictionIdAt s requestId)) = false /\
    FHE_verifySignatures requestId cleartexts proof = true /\
    abi_decode_uint32x3 cleartexts = Ok (input, prediction, groundTruth) /\
    calculatePerformanceScore input prediction groundTruth = Ok score /\
    s' = set_alert (requestToPredictionIdAt s requestId)
           {| performanceScore := score;
              alertLevel := determineAlertLevel score;
              needsRetraining := score <? 60;
              isRevealed := true |} s /\
    log = [DecryptionFulfilled requestId;
           PerformanceAlertDecrypted (requestToPredictionIdAt s requestId)].
Proof.
  rewrite processPerformanceAnalysis_eq. cbv zeta.
  destruct (Z.eqb_spec (requestToPredictionIdAt s requestId) 0) as [|Hknown]; [done|].
  destruct (isRevealed (alertAt s _)) eqn:Hfresh; [done|].
  destruct (FHE_verifySignatures _ _ _) eqn:Hvalid; [|done].
  destruct (abi_decode_uint32x3 cleartexts) as [[[input prediction] groundTruth]|]
    eqn:Hdecode; [|done].
  destruct (calculatePerformanceScore input prediction groundTruth) as [score|]
    eqn:Hscore; [|done].
  intros [= <- <-]. by exists input, prediction, groundTruth, score.
Qed.

End Equations.

(** ** The score policy *)

Section Score.

(** The checked arithmetic of [calculatePerformanceScore] returns exactly
    when the scaled error fits in 32 bits and the quotient is at most 100,
    and then it returns the integer formula. *)
Lemma calculatePerformanceScore_Ok input prediction groundTruth score :
  calculatePerformanceScore input prediction groundTruth = Ok score <->
  Z.abs (prediction - groundTruth) * 100 <= uint_max 32 /\
  Z.abs (prediction - groundTruth) * 100 / Z.max input 1 <= 100 /\
  score = 100 - Z.abs (prediction - groundTruth) * 100 / Z.max input 1.
Proof.
  unfold calculatePerformanceScore, checked_sub, checked_mul, checked_div.
  assert (Hmax : (if input >? 0 then input else 1) = Z.max input 1)
    by (destruct (Z.gtb_spec input 0); lia).
  rewrite Hmax.
  assert (Hnz : (Z.max input 1 =? 0) = false) by (apply Z.eqb_neq; lia).
  destruct (Z.gtb_spec prediction groundTruth) as [Hgt|Hle].
  - destruct (Z.leb_spec groundTruth prediction); [|lia]. simpl.
    replace (Z.abs (prediction - groundTruth)) with (prediction - groundTruth) by lia.
    destruct (Z.leb_spec ((prediction - groundTruth) * 100) (uint_max 32)); simpl.
    + rewrite Hnz. simpl.
      destruct (Z.leb_spec ((prediction - groundTruth) * 100 / Z.max input 1) 100).
      * split; [intros [= <-]; auto | intros (_ & _ & ->); done].
      * split; [done | lia].
    + split; [done | lia].
  - destruct (Z.leb_spec prediction groundTruth); [|lia]. simpl.
    replace (Z.abs (prediction - groundTruth)) with (groundTruth - prediction) by lia.
    destruct (Z.leb_spec ((groundTruth - prediction) * 100) (uint_max 32)); simpl.
    + rewrite Hnz. simpl.
      destruct (Z.leb_spec ((groundTruth - prediction) * 100 / Z.max input 1) 100).
      * split; [intros [= <-]; auto | intros (_ & _ & ->); done].
      * split; [done | lia].
    + split; [done | lia].
Qed.

Lemma calculatePerformanceScore_range input prediction groundTruth score :
  calculatePerformanceScore input prediction groundTruth = Ok score ->
  0 <= score <= 100.
Proof.
  intros (_ & Hq & ->)%calculatePerformanceScore_Ok.
  assert (0 <= Z.abs (prediction - groundTruth) * 100 / Z.max input 1)
    by (apply Z.div_pos; lia).
  lia.
Qed.

(** The worked examples of the score policy. *)
Example score_of_10_80_70 :
  calculatePerformanceScore 10 80 70 = Ok 0 /\
  determineAlertLevel 0 = "Critical" /\ (0 <? 60) = true.
Proof. repeat split; reflexivity. Qed.

Example score_of_100_90_92 :
  calculatePerformanceScore 100 90 92 = Ok 98 /\
  determineAlertLevel 98 = "Normal" /\ (98 <? 60) = false.
Proof. repeat split; reflexivity. Qed.

Example score_of_0_5_0 : calculatePerformanceScore 0 5 0 = Reverted (Panic 17).
Proof. reflexivity. Qed.

End Score.

(** ** One transaction at a time *)

Ltac by_call c :=
  destruct c; unfold exec;
  [ rewrite recordEncryptedPrediction_eq
  | rewrite requestPerformanceAnalysis_eq
  | rewrite processPerformanceAnalysis_eq
  | rewrite updateModelMetrics_eq
  | rewrite requestModelMetricsDecryption_eq
  | rewrite decryptModelMetrics_eq ];
  cbv zeta; repeat case_match; simplify_eq; try done.

Ltac unfold_storage :=
  unfold alertAt, predictionAt, metricsAt, requestToPredictionIdAt,
    requestToModelIdAt, set_alert, set_prediction, set_metrics,
    set_predictionCount, set_requestToPredictionId, set_requestToModelId,
    push_monitoredModel in *; simpl in *.

Section Steps.
Context `{Collaborators}.

Lemma exec_predictionCount env c s :
  predictionCount s <= predictionCount (exec env c s).
Proof.
  by_call c; unfold_storage; lia.
Qed.

Lemma run_predictionCount tr s :
  predictionCount s <= predictionCount (run tr s).
Proof.
  revert s. induction tr as [|[env c] tr IH]; intros s; simpl; [lia|].
  pose proof (exec_predictionCount env c s). specialize (IH (exec env c s)). lia.
Qed.

(** A stored record is never written again. *)
Lemma exec_predictionAt env c s i :
  i <= predictionCount s -> predictionAt (exec env c s) i = predictionAt s i.
Proof.
  intros Hi. by_call c; unfold_storage; rewrite lookup_insert_ne by lia; done.
Qed.

Lemma run_predictionAt tr s i :
  i <= predictionCount s -> predictionAt (run tr s) i = predictionAt s i.
Proof.
  revert s. induction tr as [|[env c] tr IH]; intros s Hi; simpl; [done|].
  rewrite IH by (pose proof (exec_predictionCount env c s); lia).
  by apply exec_predictionAt.
Qed.

(** The monitored list only grows, at its end. *)
Lemma isModelMonitored_from_app models extra m :
  isModelMonitored_from models m = true ->
  isModelMonitored_from (models ++ extra) m = true.
Proof.
  induction models as [|x models IH]; simpl; [done|].
  destruct (_ =? _); auto.
Qed.

Lemma isModelMonitored_from_snoc models m :
  isModelMonitored_from (models ++ [m]) m = true.
Proof.
  induction models as [|x models IH]; simpl.
  - by rewrite Z.eqb_refl.
  - destruct (_ =? _); auto.
Qed.

Lemma isModelMonitored_from_elem models m :
  isModelMonitored_from models m = true <->
  keccak256 (String.list_byte_of_string m)
    ∈ map (fun x => keccak256 (String.list_byte_of_string x)) models.
Proof.
  induction models as [|x models IH]; simpl.
  - split; [done|]. intros Hin. by apply not_elem_of_nil in Hin.
  - rewrite elem_of_cons, <- IH.
    destruct (Z.eqb_spec (keccak256 (String.list_byte_of_string x))
                (keccak256 (String.list_byte_of_string m))) as [Heq|Hne].
    + split; [intros _; by left|done].
    + split; [by right|]. intros [Heq|Hin]; [congruence|done].
Qed.

(** A model gets into the monitored list only through a submission, and
    every submitted model is monitored from then on. *)
Lemma exec_monitored_recorded env c s m :
  m ∈ monitoredModels (exec env c s) ->
  m ∈ monitoredModels s \/ m ∈ recorded_models (effects_of env c s).
Proof.
  unfold effects_of. by_call c; unfold_storage; try (by left).
  intros [Hold|Hnew]%elem_of_app; [by left|right].
  apply list_elem_of_singleton in Hnew as ->. apply elem_of_cons. by left.
Qed.

Lemma run_monitored_recorded tr s m :
  m ∈ monitoredModels (run tr s) ->
  m ∈ monitoredModels s \/ m ∈ recorded_models (run_log tr s).
Proof.
  revert s. induction tr as [|[env c] tr IH]; intros s; simpl; [by left|].
  intros [Hstep|Hlater]%IH.
  - apply exec_monitored_recorded in Hstep as [Hold|Hnew]; [by left|right].
    unfold recorded_models. rewrite omap_app. apply elem_of_app. by left.
  - right. unfold recorded_models. rewrite omap_app. apply elem_of_app. by right.
Qed.

Lemma exec_isModelMonitored env c s m :
  isModelMonitored_from (monitoredModels s) m = true ->
  isModelMonitored_from (monitoredModels (exec env c s)) m = true.
Proof.
  intros Hm. by_call c; unfold_storage. by apply isModelMonitored_from_app.
Qed.

Lemma run_isModelMonitored tr s m :
  isModelMonitored_from (monitoredModels s) m = true ->
  isModelMonitored_from (monitoredModels (run tr s)) m = true.
Proof.
  revert s. induction tr as [|[env c] tr IH]; intros s Hm; simpl; [done|].
  apply IH. by apply exec_isModelMonitored.
Qed.

Lemma exec_recorded_monitored env c s m :
  m ∈ recorded_models (effects_of env c s) ->
  isModelMonitored_from (monitoredModels (exec env c s)) m = true.
Proof.
  unfold effects_of. by_call c; unfold recorded_models; simpl.
  all: try (intros Hin; by apply not_elem_of_nil in Hin).
  - intros [->|Hin]%elem_of_cons; [done|by apply not_elem_of_nil in Hin].
  - intros [->|Hin]%elem_of_cons; [|by apply not_elem_of_nil in Hin].
    apply isModelMonitored_from_snoc.
Qed.

Lemma run_recorded_monitored tr s m :
  m ∈ recorded_models (run_log tr s) ->
  isModelMonitored_from (monitoredModels (run tr s)) m = true.
Proof.
  revert s. induction tr as [|[env c] tr IH]; intros s; simpl.
  - intros Hin. by apply not_elem_of_nil in Hin.
  - unfold recorded_models. rewrite omap_app.
    intros [Hhere|Hlater]%elem_of_app.
    + apply run_isModelMonitored. by apply exec_recorded_monitored.
    + by apply IH.
Qed.

(** The alert of an existing record, once revealed, is never written. *)
Lemma exec_alertAt_revealed env c s i :
  i <= predictionCount s -> isRevealed (alertAt s i) = true ->
  alertAt (exec env c s) i = alertAt s i.
Proof.
  intros Hi Hrev. by_call c.
  - unfold_storage. rewrite lookup_insert_ne by lia. done.
  - unfold_storage. rewrite lookup_insert_ne by lia. done.
  - destruct (decide (requestToPredictionIdAt s requestId = i)) as [<-|Hne].
    + congruence.
    + by rewrite alertAt_set_alert_ne.
Qed.

Lemma run_alertAt_revealed tr s i :
  i <= predictionCount s -> isRevealed (alertAt s i) = true ->
  alertAt (run tr s) i = alertAt s i.
Proof.
  revert s. induction tr as [|[env c] tr IH]; intros s Hi Hrev; simpl; [done|].
  pose proof (exec_predictionCount env c s).
  pose proof (exec_alertAt_revealed env c s i Hi Hrev) as Hstep.
  rewrite IH by (try lia; congruence). done.
Qed.

(** The one transaction that writes the alert of an existing record. *)
Lemma exec_alertAt_written env c s i :
  i <= predictionCount s ->
  alertAt (exec env c s) i = alertAt s i \/
  (isRevealed (alertAt s i) = false /\
   exists requestId cleartexts proof input prediction groundTruth score,
     c = ProcessPerformanceAnalysis requestId cleartexts proof /\
     requestToPredictionIdAt s requestId = i /\
     FHE_verifySignatures requestId cleartexts proof = true /\
     abi_decode_uint32x3 cleartexts = Ok (input, prediction, groundTruth) /\
     calculatePerformanceScore input prediction groundTruth = Ok score /\
     alertAt (exec env c s) i =
       {| performanceScore := score; alertLevel := determineAlertLevel score;
          needsRetraining := score <? 60; isRevealed := true |}).
Proof.
  intros Hi. by_call c; try (by left).
  - left. unfold_storage. rewrite lookup_insert_ne by lia. done.
  - left. unfold_storage. rewrite lookup_insert_ne by lia. done.
  - destruct (decide (requestToPredictionIdAt s requestId = i)) as [<-|Hne].
    + right. split; [done|]. repeat eexists; eauto. by rewrite alertAt_set_alert_eq.
    + left. by rewrite alertAt_set_alert_ne.
Qed.

(** An alert that is still unrevealed after a trace was not written by it. *)
Lemma run_alertAt_unrevealed tr s i :
  i <= predictionCount s ->
  isRevealed (alertAt (run tr s) i) = false ->
  alertAt (run tr s) i = alertAt s i.
Proof.
  revert s. induction tr as [|[env c] tr IH]; intros s Hi Hun; simpl in *; [done|].
  pose proof (exec_predictionCount env c s) as Hcount.
  destruct (exec_alertAt_written env c s i Hi) as [Hsame|(_ & Hwritten)].
  - rewrite IH by (done || lia). done.
  - destruct Hwritten as (? & ? & ? & ? & ? & ? & ? & _ & _ & _ & _ & _ & Hnew).
    rewrite run_alertAt_revealed in Hun by (try lia; by rewrite Hnew).
    by rewrite Hnew in Hun.
Qed.

(** The identifiers a trace hands out continue the counter. *)
Lemma exec_recorded_ids env c s :
  recorded_ids (effects_of env c s) =
  seqZ (predictionCount s + 1) (predictionCount (exec env c s) - predictionCount s).
Proof.
  unfold effects_of. by_call c; unfold_storage;
    try (rewrite seqZ_nil by lia; done).
  - rewrite seqZ_cons, seqZ_nil by lia. done.
  - rewrite seqZ_cons, seqZ_nil by lia. done.
Qed.

Lemma run_recorded_ids tr s :
  recorded_ids (run_log tr s) =
  seqZ (predictionCount s + 1) (predictionCount (run tr s) - predictionCount s).
Proof.
  revert s. induction tr as [|[env c] tr IH]; intros s; simpl.
  - rewrite seqZ_nil by lia. done.
  - pose proof (exec_predictionCount env c s).
    pose proof (run_predictionCount tr (exec env c s)).
    unfold recorded_ids in *. rewrite omap_app, IH.
    fold (recorded_ids (effects_of env c s)). rewrite exec_recorded_ids.
    replace (predictionCount (run tr (exec env c s)) - predictionCount s)
      with ((predictionCount (exec env c s) - predictionCount s)
            + (predictionCount (run tr (exec env c s)) - predictionCount (exec env c s)))
      by lia.
    rewrite seqZ_app by lia. do 2 f_equal. lia.
Qed.

Lemma initial_wellformed : alerts_wellformed initial.
Proof.
  intros i. unfold alertAt; simpl. rewrite lookup_empty. simpl. split; [lia|done].
Qed.

Lemma exec_wellformed env c s :
  alerts_wellformed s -> alerts_wellformed (exec env c s).
Proof.
  intros Hs. by_call c.
  - intros i. destruct (decide (predictionCount s + 1 = i)) as [<-|Hne].
    + unfold_storage. rewrite lookup_insert_eq. simpl. split; [lia|done].
    + specialize (Hs i). unfold_storage. rewrite lookup_insert_ne by done. done.
  - intros i. destruct (decide (predictionCount s + 1 = i)) as [<-|Hne].
    + unfold_storage. rewrite lookup_insert_eq. simpl. split; [lia|done].
    + specialize (Hs i). unfold_storage. rewrite lookup_insert_ne by done. done.
  - intros i. destruct (decide (requestToPredictionIdAt s requestId = i)) as [<-|Hne].
    + rewrite alertAt_set_alert_eq. simpl. split; [|done].
      eapply calculatePerformanceScore_range; eauto.
    + rewrite alertAt_set_alert_ne by done. apply Hs.
Qed.

Lemma run_wellformed tr s :
  alerts_wellformed s -> alerts_wellformed (run tr s).
Proof.
  revert s. induction tr as [|[env c] tr IH]; intros s Hs; simpl; [done|].
  apply IH. by apply exec_wellformed.
Qed.

(** A correlation is written only when the oracle answers with its
    request identifier. *)
Lemma exec_requestToPredictionIdAt env c s r :
  issues_analysis_request r (env, c) = false ->
  requestToPredictionIdAt (exec env c s) r = requestToPredictionIdAt s r.
Proof.
  unfold issues_analysis_request; simpl. intros Hfresh. by_call c.
  apply Z.eqb_neq in Hfresh. unfold_storage. by rewrite lookup_insert_ne.
Qed.

Lemma run_requestToPredictionIdAt tr s r :
  existsb (issues_analysis_request r) tr = false ->
  requestToPredictionIdAt (run tr s) r = requestToPredictionIdAt s r.
Proof.
  revert s. induction tr as [|[env c] tr IH]; intros s Hfresh; simpl in *; [done|].
  apply orb_false_iff in Hfresh as [Hhead Htail].
  rewrite IH by done. by apply exec_requestToPredictionIdAt.
Qed.

Lemma exec_requestToModelIdAt env c s r :
  issues_metrics_request r (env, c) = false ->
  requestToModelIdAt (exec env c s) r = requestToModelIdAt s r.
Proof.
  unfold issues_metrics_request; simpl. intros Hfresh. by_call c.
  apply Z.eqb_neq in Hfresh. unfold_storage. by rewrite lookup_insert_ne.
Qed.

Lemma run_requestToModelIdAt tr s r :
  existsb (issues_metrics_request r) tr = false ->
  requestToModelIdAt (run tr s) r = requestToModelIdAt s r.
Proof.
  revert s. induction tr as [|[env c] tr IH]; intros s Hfresh; simpl in *; [done|].
  apply orb_false_iff in Hfresh as [Hhead Htail].
  rewrite IH by done. by apply exec_requestToModelIdAt.
Qed.

End Steps.

Section Callback.
Context `{Collaborators}.

(** C1. A completeAnalysis callback that succeeds on the plaintext triple
    (input, prediction, groundTruth) stores, for the record the request
    targets, score = 100 - (|prediction - groundTruth| * 100 / max(input,1))
    with integer division, the level Critical below 50, Warning from 50
    below 70, Notice from 70 below 85 and Normal from 85, and
    needsRetraining true exactly when the score is below 60. *)
Theorem completeAnalysis_stores_score env s requestId cleartexts proof s' log :
  transact env (ProcessPerformanceAnalysis requestId cleartexts proof) s = Ok (s', log) ->
  exists input prediction groundTruth,
    abi_decode_uint32x3 cleartexts = Ok (input, prediction, groundTruth) /\
    let score := 100 - Z.abs (prediction - groundTruth) * 100 / Z.max input 1 in
    let a := alertAt s' (requestToPredictionIdAt s requestId) in
    performanceScore a = score /\
    (score < 50 -> alertLevel a = "Critical") /\
    (50 <= score < 70 -> alertLevel a = "Warning") /\
    (70 <= score < 85 -> alertLevel a = "Notice") /\
    (85 <= score -> alertLevel a = "Normal") /\
    (needsRetraining a = true <-> score < 60) /\
    isRevealed a = true.
Proof.
  intros (input & prediction & groundTruth & score & _ & _ & _ & Hdecode & Hscore
          & -> & _)%processPerformanceAnalysis_Ok.
  exists input, prediction, groundTruth. split; [done|].
  apply calculatePerformanceScore_Ok in Hscore as (_ & _ & Hformula).
  rewrite <- Hformula. clear Hformula.
  rewrite alertAt_set_alert_eq. simpl. unfold determineAlertLevel.
  repeat split; try done;
    repeat (match goal with
            | |- context [?a <? ?b] => destruct (Z.ltb_spec a b)
            end); intros; try done; lia.
Qed.

End Callback.

(** C1 on the reference data: input 100, prediction 90, ground truth 92. *)
Lemma completeAnalysis_stores_score_witness :
  transact (Reference.env 0)
    (ProcessPerformanceAnalysis 7 Reference.cleartexts
       (Reference.sign 7 Reference.cleartexts)) Reference.requested
  = Ok (Reference.revealed, [DecryptionFulfilled 7; PerformanceAlertDecrypted 1]) /\
  exists input prediction groundTruth,
    abi_decode_uint32x3 Reference.cleartexts = Ok (input, prediction, groundTruth) /\
    let score := 100 - Z.abs (prediction - groundTruth) * 100 / Z.max input 1 in
    let a := alertAt Reference.revealed (requestToPredictionIdAt Reference.requested 7) in
    performanceScore a = score /\
    (score < 50 -> alertLevel a = "Critical") /\
    (50 <= score < 70 -> alertLevel a = "Warning") /\
    (70 <= score < 85 -> alertLevel a = "Notice") /\
    (85 <= score -> alertLevel a = "Normal") /\
    (needsRetraining a = true <-> score < 60) /\
    isRevealed a = true.
Proof.
  assert (Hrun : transact (Reference.env 0)
            (ProcessPerformanceAnalysis 7 Reference.cleartexts
               (Reference.sign 7 Reference.cleartexts)) Reference.requested
          = Ok (Reference.revealed, [DecryptionFulfilled 7; PerformanceAlertDecrypted 1]))
    by reflexivity.
  split; [exact Hrun|].
  exact (completeAnalysis_stores_score _ _ _ _ _ _ _ Hrun).
Defined.

Section FailedCallback.
Context `{Collaborators}.

(** C2. A completeAnalysis call whose proof does not verify fails, and a
    completeAnalysis call that fails for any reason leaves the whole
    storage as it was: every AlertState and the pending correlation of the
    request are unchanged, so the same request can be completed afterwards
    with a proof that verifies. *)
Theorem failed_completeAnalysis_changes_nothing env s requestId cleartexts proof :
  (FHE_verifySignatures requestId cleartexts proof = false ->
   exists r, transact env (ProcessPerformanceAnalysis requestId cleartexts proof) s
             = Reverted r) /\
  (forall r,
     transact env (ProcessPerformanceAnalysis requestId cleartexts proof) s = Reverted r ->
     let s' := exec env (ProcessPerformanceAnalysis requestId cleartexts proof) s in
     s' = s /\
     (forall i, alertAt s' i = alertAt s i) /\
     requestToPredictionIdAt s' requestId = requestToPredictionIdAt s requestId /\
     forall env' cleartexts' proof' input prediction groundTruth score,
       requestToPredictionIdAt s requestId <> 0 ->
       isRevealed (alertAt s (requestToPredictionIdAt s requestId)) = false ->
       FHE_verifySignatures requestId cleartexts' proof' = true ->
       abi_decode_uint32x3 cleartexts' = Ok (input, prediction, groundTruth) ->
       calculatePerformanceScore input prediction groundTruth = Ok score ->
       exists s'' log,
         transact env' (ProcessPerformanceAnalysis requestId cleartexts' proof') s'
         = Ok (s'', log) /\
         isRevealed (alertAt s'' (requestToPredictionIdAt s requestId)) = true).
Proof.
  split.
  - intros Hforged. rewrite processPerformanceAnalysis_eq. cbv zeta.
    rewrite Hforged. repeat case_match; eauto.
  - intros r Hfail. unfold exec. rewrite Hfail. simpl.
    repeat split.
    intros env' cleartexts' proof' input prediction groundTruth score
      Hknown Hfresh Hvalid Hdecode Hscore.
    rewrite processPerformanceAnalysis_eq. cbv zeta.
    apply Z.eqb_neq in Hknown. rewrite Hknown, Hfresh, Hvalid, Hdecode, Hscore.
    eexists _, _. split; [done|]. by rewrite alertAt_set_alert_eq.
Qed.

End FailedCallback.

(** C2 on the reference data: an empty proof is rejected, nothing moves,
    and the signed callback then reveals record 1. *)
Lemma failed_completeAnalysis_changes_nothing_witness :
  (exists r, transact (Reference.env 0)
               (ProcessPerformanceAnalysis 7 Reference.cleartexts []) Reference.requested
             = Reverted r) /\
  exec (Reference.env 0)
    (ProcessPerformanceAnalysis 7 Reference.cleartexts []) Reference.requested
  = Reference.requested /\
  exists s'' log,
    transact (Reference.env 0)
      (ProcessPerformanceAnalysis 7 Reference.cleartexts
         (Reference.sign 7 Reference.cleartexts))
      (exec (Reference.env 0)
         (ProcessPerformanceAnalysis 7 Reference.cleartexts []) Reference.requested)
    = Ok (s'', log) /\
    isRevealed (alertAt s'' (requestToPredictionIdAt Reference.requested 7)) = true.
Proof.
  destruct (failed_completeAnalysis_changes_nothing (Reference.env 0)
              Reference.requested 7 Reference.cleartexts []) as [Hforged Hfail].
  split; [apply Hforged; reflexivity|].
  destruct (Hfail InvalidKMSSignatures eq_refl) as (Hsame & _ & _ & Hretry).
  split; [exact Hsame|].
  apply (Hretry (Reference.env 0) Reference.cleartexts
           (Reference.sign 7 Reference.cleartexts) 100 90 92 98).
  - vm_compute. discriminate.
  - reflexivity.
  - reflexivity.
  - reflexivity.
  - reflexivity.
Defined.

Section Replay.
Context `{Collaborators}.

(** C3, amended. After a completeAnalysis call has succeeded for a request
    that targets an existing record, every later completeAnalysis call
    with that request identifier fails with "Already processed", whatever
    happens in between, as long as the oracle does not answer a new
    analysis request with the same identifier; the correlation itself is
    kept.  A metrics callback consumes nothing: when it succeeds the
    storage is unchanged and the same callback succeeds again. *)
Theorem completeAnalysis_replay_rejected :
  (forall env s requestId cleartexts proof s1 log tr env' cleartexts' proof',
     transact env (ProcessPerformanceAnalysis requestId cleartexts proof) s = Ok (s1, log) ->
     requestToPredictionIdAt s requestId <= predictionCount s ->
     existsb (issues_analysis_request requestId) tr = false ->
     requestToPredictionIdAt (run tr s1) requestId = requestToPredictionIdAt s requestId /\
     transact env' (ProcessPerformanceAnalysis requestId cleartexts' proof') (run tr s1)
     = Reverted (ErrorString "Already processed")) /\
  (forall env s requestId cleartexts proof s1 log env',
     transact env (DecryptModelMetrics requestId cleartexts proof) s = Ok (s1, log) ->
     s1 = s /\
     transact env' (DecryptModelMetrics requestId cleartexts proof) s1 = Ok (s1, log)).
Proof.
  split.
  - intros env s requestId cleartexts proof s1 log tr env' cleartexts' proof'
      Hok Hexists Hfresh.
    pose proof (processPerformanceAnalysis_Ok _ _ _ _ _ _ _ Hok)
      as (input & prediction & groundTruth & score & Hknown & _ & _ & _ & _ & Hs1 & _).
    apply Z.eqb_neq in Hknown.
    assert (Hrevealed : isRevealed (alertAt s1 (requestToPredictionIdAt s requestId)) = true)
      by (by rewrite Hs1, alertAt_set_alert_eq).
    assert (Hsame : requestToPredictionIdAt s1 requestId = requestToPredictionIdAt s requestId).
    { replace s1 with (exec env (ProcessPerformanceAnalysis requestId cleartexts proof) s)
        by (unfold exec; by rewrite Hok).
      by apply exec_requestToPredictionIdAt. }
    assert (Hcount : predictionCount s <= predictionCount s1).
    { replace s1 with (exec env (ProcessPerformanceAnalysis requestId cleartexts proof) s)
        by (unfold exec; by rewrite Hok).
      apply exec_predictionCount. }
    assert (Hkept : requestToPredictionIdAt (run tr s1) requestId
                    = requestToPredictionIdAt s requestId).
    { by rewrite run_requestToPredictionIdAt. }
    split; [done|].
    rewrite processPerformanceAnalysis_eq. cbv zeta.
    rewrite Hkept, Hknown, run_alertAt_revealed, Hrevealed by (done || lia). done.
  - intros env s requestId cleartexts proof s1 log env' Hok.
    rewrite decryptModelMetrics_eq in Hok.
    assert (Hsame : s1 = s /\ log = [DecryptionFulfilled requestId])
      by (repeat case_match; by simplify_eq).
    destruct Hsame as [-> ->]. split; [done|].
    rewrite decryptModelMetrics_eq. done.
Qed.

End Replay.

(** C3 on the reference data: after the callback of request 7 and two
    later transactions, the callback is rejected; the metrics callback of
    request 8 is accepted and can be repeated. *)
Lemma completeAnalysis_replay_rejected_witness :
  (requestToPredictionIdAt (run Reference.later Reference.revealed) 7 = 1 /\
   transact (Reference.env 0)
     (ProcessPerformanceAnalysis 7 Reference.cleartexts
        (Reference.sign 7 Reference.cleartexts))
     (run Reference.later Reference.revealed)
   = Reverted (ErrorString "Already processed")) /\
  (Reference.metrics_requested = Reference.metrics_requested /\
   transact (Reference.env 0)
     (DecryptModelMetrics 8 Reference.metrics_cleartexts
        (Reference.sign 8 Reference.metrics_cleartexts))
     Reference.metrics_requested
   = Ok (Reference.metrics_requested, [DecryptionFulfilled 8])).
Proof.
  destruct (@completeAnalysis_replay_rejected Reference.collaborators)
    as [Hreplay Hmetrics].
  split.
  - apply (Hreplay (Reference.env 0) Reference.requested 7 Reference.cleartexts
             (Reference.sign 7 Reference.cleartexts) Reference.revealed
             [DecryptionFulfilled 7; PerformanceAlertDecrypted 1] Reference.later).
    + reflexivity.
    + vm_compute. discriminate.
    + reflexivity.
  - apply (Hmetrics (Reference.env 0) Reference.metrics_requested 8
             Reference.metrics_cleartexts
             (Reference.sign 8 Reference.metrics_cleartexts)).
    reflexivity.
Defined.

(** Why C3 and C7 speak of existing records: a request made for
    identifier 1 before any submission can be completed, the submission
    that later takes identifier 1 resets that alert, and the same callback
    is then accepted a second time. *)
Example premature_request_completes_twice :
  predictionCount Reference.start = 0 /\
  isRevealed (alertAt (run Reference.premature Reference.start) 1) = true /\
  isRevealed (alertAt Reference.resubmitted 1) = false /\
  transact (Reference.env 0)
    (ProcessPerformanceAnalysis 7 Reference.cleartexts
       (Reference.sign 7 Reference.cleartexts)) Reference.resubmitted
  = Ok (set_alert 1 (alertAt Reference.revealed 1) Reference.resubmitted,
        [DecryptionFulfilled 7; PerformanceAlertDecrypted 1]).
Proof.
  repeat split; reflexivity.
Qed.

(** C3 as stated fails: the second completeAnalysis call for request 7 is
    rejected with "Already processed", which is not the "Invalid request"
    of an unknown request, and the metrics callback of request 8 is
    accepted twice in a row. *)
Lemma completeAnalysis_replay_counterexample :
  transact (Reference.env 0)
    (ProcessPerformanceAnalysis 7 Reference.cleartexts
       (Reference.sign 7 Reference.cleartexts)) Reference.requested
  = Ok (Reference.revealed, [DecryptionFulfilled 7; PerformanceAlertDecrypted 1]) /\
  transact (Reference.env 0)
    (ProcessPerformanceAnalysis 7 Reference.cleartexts
       (Reference.sign 7 Reference.cleartexts)) Reference.revealed
  = Reverted (ErrorString "Already processed") /\
  ErrorString "Already processed" <> ErrorString "Invalid request" /\
  transact (Reference.env 0)
    (DecryptModelMetrics 8 Reference.metrics_cleartexts
       (Reference.sign 8 Reference.metrics_cleartexts)) Reference.metrics_requested
  = Ok (Reference.metrics_requested, [DecryptionFulfilled 8]) /\
  transact (Reference.env 0)
    (DecryptModelMetrics 8 Reference.metrics_cleartexts
       (Reference.sign 8 Reference.metrics_cleartexts))
    (exec (Reference.env 0)
       (DecryptModelMetrics 8 Reference.metrics_cleartexts
          (Reference.sign 8 Reference.metrics_cleartexts)) Reference.metrics_requested)
  = Ok (Reference.metrics_requested, [DecryptionFulfilled 8]).
Proof.
  repeat split; try reflexivity. discriminate.
Qed.

Section Request.
Context `{Collaborators}.

(** C4, amended. requestAnalysis is guarded by the revealed flag alone: on
    a revealed alert it fails with "Already analyzed" and changes nothing;
    otherwise it succeeds, whether or not the record exists and whether or
    not a request for it is already pending, and its only write is the
    correlation from the oracle's request identifier to the record. *)
Theorem requestAnalysis_guard env s predictionId :
  (isRevealed (alertAt s predictionId) = true ->
   transact env (RequestPerformanceAnalysis predictionId) s
   = Reverted (ErrorString "Already analyzed") /\
   exec env (RequestPerformanceAnalysis predictionId) s = s) /\
  (isRevealed (alertAt s predictionId) = false ->
   exists log,
     transact env (RequestPerformanceAnalysis predictionId) s
     = Ok (set_requestToPredictionId (oracle_requestId env) predictionId s, log) /\
     let s' := exec env (RequestPerformanceAnalysis predictionId) s in
     requestToPredictionIdAt s' (oracle_requestId env) = predictionId /\
     (forall r, r <> oracle_requestId env ->
        requestToPredictionIdAt s' r = requestToPredictionIdAt s r) /\
     (forall i, alertAt s' i = alertAt s i) /\
     (forall i, predictionAt s' i = predictionAt s i) /\
     (forall m, metricsAt s' m = metricsAt s m) /\
     (forall r, requestToModelIdAt s' r = requestToModelIdAt s r) /\
     predictionCount s' = predictionCount s /\
     monitoredModels s' = monitoredModels s).
Proof.
  split; intros Hrev.
  - unfold exec. rewrite requestPerformanceAnalysis_eq, Hrev. done.
  - unfold exec. rewrite requestPerformanceAnalysis_eq, Hrev. cbv zeta.
    eexists. split; [done|]. unfold_storage. rewrite lookup_insert_eq.
    repeat split. intros r Hr. by rewrite lookup_insert_ne.
Qed.

End Request.

(** C4 on the reference data: record 1 is revealed in [revealed] and not
    yet in [requested], where request 7 is already pending for it. *)
Lemma requestAnalysis_guard_witness :
  (transact (Reference.env 8) (RequestPerformanceAnalysis 1) Reference.revealed
   = Reverted (ErrorString "Already analyzed") /\
   exec (Reference.env 8) (RequestPerformanceAnalysis 1) Reference.revealed
   = Reference.revealed) /\
  requestToPredictionIdAt
    (exec (Reference.env 8) (RequestPerformanceAnalysis 1) Reference.requested) 8 = 1.
Proof.
  split.
  - apply (requestAnalysis_guard (Reference.env 8) Reference.revealed 1). reflexivity.
  - destruct (requestAnalysis_guard (Reference.env 8) Reference.requested 1)
      as [_ Hopen].
    destruct (Hopen eq_refl) as (log & _ & Hwritten & _). exact Hwritten.
Defined.

(** C4 as stated fails: a second requestAnalysis for record 1, whose first
    request 7 is still pending, succeeds, and so does a request for the
    record 5 that was never submitted. *)
Lemma requestAnalysis_guard_counterexample :
  predictionCount Reference.submitted = 1 /\
  transact (Reference.env 7) (RequestPerformanceAnalysis 1) Reference.submitted
  = Ok (Reference.requested,
        [DecryptionRequested [101; 91; 93] processPerformanceAnalysis_selector 7;
         PerformanceAnalysisRequested 1]) /\
  requestToPredictionIdAt Reference.requested 7 = 1 /\
  isRevealed (alertAt Reference.requested 1) = false /\
  transact (Reference.env 8) (RequestPerformanceAnalysis 1) Reference.requested
  = Ok (set_requestToPredictionId 8 1 Reference.requested,
        [DecryptionRequested [101; 91; 93] processPerformanceAnalysis_selector 8;
         PerformanceAnalysisRequested 1]) /\
  predictions Reference.submitted !! 5 = None /\
  transact (Reference.env 9) (RequestPerformanceAnalysis 5) Reference.submitted
  = Ok (set_requestToPredictionId 9 5 Reference.submitted,
        [DecryptionRequested [0; 0; 0] processPerformanceAnalysis_selector 9;
         PerformanceAnalysisRequested 5]).
Proof.
  repeat split; reflexivity.
Qed.

Section Range.
Context `{Collaborators}.

(** C5. In every state reachable from the initial one, a revealed alert
    holds a score between 0 and 100.  The score is not clamped: when the
    integer quotient error * 100 / max(input,1) exceeds 100 the callback
    reverts and records nothing, and whenever error * 100 exceeds
    100 * max(input,1) the only score a completed analysis can record
    is 0. *)
Theorem revealed_score_in_range :
  (forall tr i,
     isRevealed (alertAt (run tr initial) i) = true ->
     0 <= performanceScore (alertAt (run tr initial) i) <= 100) /\
  (forall env s requestId cleartexts proof input prediction groundTruth,
     abi_decode_uint32x3 cleartexts = Ok (input, prediction, groundTruth) ->
     100 < Z.abs (prediction - groundTruth) * 100 / Z.max input 1 ->
     (exists r, transact env (ProcessPerformanceAnalysis requestId cleartexts proof) s
                = Reverted r) /\
     exec env (ProcessPerformanceAnalysis requestId cleartexts proof) s = s) /\
  (forall env s requestId cleartexts proof input prediction groundTruth s' log,
     abi_decode_uint32x3 cleartexts = Ok (input, prediction, groundTruth) ->
     100 * Z.max input 1 < Z.abs (prediction - groundTruth) * 100 ->
     transact env (ProcessPerformanceAnalysis requestId cleartexts proof) s = Ok (s', log) ->
     performanceScore (alertAt s' (requestToPredictionIdAt s requestId)) = 0).
Proof.
  split; [|split].
  - intros tr i _. apply (run_wellformed tr initial initial_wellformed i).
  - intros env s requestId cleartexts proof input prediction groundTruth Hdecode Hover.
    assert (Hfail : exists r,
               transact env (ProcessPerformanceAnalysis requestId cleartexts proof) s
               = Reverted r).
    { rewrite processPerformanceAnalysis_eq. cbv zeta. rewrite Hdecode.
      destruct (calculatePerformanceScore input prediction groundTruth) as [score|r]
        eqn:Hscore.
      - apply calculatePerformanceScore_Ok in Hscore. lia.
      - repeat case_match; eauto. }
    split; [done|]. destruct Hfail as [r Hfail]. unfold exec. by rewrite Hfail.
  - intros env s requestId cleartexts proof input prediction groundTruth s' log
      Hdecode Hover Hok.
    destruct (processPerformanceAnalysis_Ok _ _ _ _ _ _ _ Hok)
      as (input' & prediction' & groundTruth' & score & _ & _ & _ & Hdecode'
          & Hscore & -> & _).
    rewrite Hdecode in Hdecode'. injection Hdecode' as <- <- <-.
    rewrite alertAt_set_alert_eq. simpl.
    apply calculatePerformanceScore_Ok in Hscore as (_ & Hq & ->).
    assert (100 <= Z.abs (prediction - groundTruth) * 100 / Z.max input 1);
      [|lia].
    apply Z.div_le_lower_bound; lia.
Qed.

End Range.

(** C5 on the reference data: record 1 holds 98; the payload (0, 5, 0)
    is refused; the payload (200, 201, 0) records 0. *)
Lemma revealed_score_in_range_witness :
  0 <= performanceScore (alertAt (run Reference.history initial) 1) <= 100 /\
  ((exists r,
      transact (Reference.env 0)
        (ProcessPerformanceAnalysis 7 Reference.overflowing
           (Reference.sign 7 Reference.overflowing)) Reference.requested
      = Reverted r) /\
   exec (Reference.env 0)
     (ProcessPerformanceAnalysis 7 Reference.overflowing
        (Reference.sign 7 Reference.overflowing)) Reference.requested
   = Reference.requested) /\
  performanceScore
    (alertAt
       (exec (Reference.env 0)
          (ProcessPerformanceAnalysis 7 Reference.borderline
             (Reference.sign 7 Reference.borderline)) Reference.requested)
       (requestToPredictionIdAt Reference.requested 7)) = 0.
Proof.
  destruct (@revealed_score_in_range Reference.collaborators)
    as (Hrange & Hrefused & Hzero).
  split; [|split].
  - apply Hrange. reflexivity.
  - apply (Hrefused (Reference.env 0) Reference.requested 7 Reference.overflowing
             (Reference.sign 7 Reference.overflowing) 0 5 0).
    + reflexivity.
    + vm_compute. reflexivity.
  - apply (Hzero (Reference.env 0) Reference.requested 7 Reference.borderline
             (Reference.sign 7 Reference.borderline) 200 201 0 _
             [DecryptionFulfilled 7; PerformanceAlertDecrypted 1]).
    + reflexivity.
    + vm_compute. reflexivity.
    + reflexivity.
Defined.

Section Aggregate.
Context `{Collaborators}.

(** C6, amended. updateModelMetrics makes no monitored-model check: for
    every model identifier, monitored or not, it succeeds and replaces
    that model's aggregate by the field-wise homomorphic sum of the stored
    accumulators and the deltas; every other aggregate and every other
    storage variable is unchanged. *)
Theorem updateModelMetrics_unguarded env s m accuracy drift errorRate :
  exists s',
    transact env (UpdateModelMetrics m accuracy drift errorRate) s = Ok (s', []) /\
    metricsAt s' m =
      {| encryptedAccuracy := FHE_add (encryptedAccuracy (metricsAt s m)) accuracy;
         encryptedDriftScore := FHE_add (encryptedDriftScore (metricsAt s m)) drift;
         encryptedErrorRate := FHE_add (encryptedErrorRate (metricsAt s m)) errorRate |} /\
    (forall m', m' <> m -> metricsAt s' m' = metricsAt s m') /\
    monitoredModels s' = monitoredModels s /\
    predictionCount s' = predictionCount s /\
    predictions s' = predictions s /\
    performanceAlerts s' = performanceAlerts s /\
    requestToPredictionId s' = requestToPredictionId s /\
    requestToModelId s' = requestToModelId s.
Proof.
  eexists. split; [apply updateModelMetrics_eq|].
  split; [apply metricsAt_set_metrics_eq|].
  split; [|done].
  intros m' Hne. by apply metricsAt_set_metrics_ne.
Qed.

End Aggregate.

(** C6 on the reference data: updating the unknown model "ghost" leaves
    the aggregate of "m" alone. *)
Lemma updateModelMetrics_unguarded_witness :
  exists s',
    transact (Reference.env 0) Reference.ghost_update Reference.submitted
    = Ok (s', []) /\
    metricsAt s' "m" = metricsAt Reference.submitted "m".
Proof.
  destruct (updateModelMetrics_unguarded (H := Reference.collaborators)
              (Reference.env 0) Reference.submitted "ghost"
              (Reference.handle 5) (Reference.handle 6) (Reference.handle 7))
    as (s' & Hok & _ & Hothers & _).
  exists s'. split; [exact Hok|]. apply Hothers. discriminate.
Defined.

(** C6 as stated fails: on the initial storage, where no model is
    monitored, updateModelMetrics for "ghost" succeeds and writes its
    aggregate. *)
Lemma updateModelMetrics_unguarded_counterexample :
  monitoredModels Reference.start = [] /\
  transact (Reference.env 0) Reference.ghost_update Reference.start
  = Ok (set_metrics "ghost" (Reference.metrics_of 6 7 8) Reference.start, []) /\
  metricsAt Reference.start "ghost" = Reference.metrics_of 0 0 0 /\
  metricsAt (exec (Reference.env 0) Reference.ghost_update Reference.start) "ghost"
  = Reference.metrics_of 6 7 8.
Proof.
  repeat split; reflexivity.
Qed.

Section AlertLifecycle.
Context `{Collaborators}.

(** C7. For the AlertState of every existing record: once revealed it is
    never written again by any sequence of transactions, so revealed
    never goes back to false; a transaction either leaves it untouched or
    is the successful callback that writes score, level, needsRetraining
    and revealed = true together on an alert that was unrevealed; and
    while it is unrevealed it still holds the zeroed fields it was created
    with. *)
Theorem alertState_written_once s i :
  1 <= i <= predictionCount s ->
  (forall tr, isRevealed (alertAt s i) = true -> alertAt (run tr s) i = alertAt s i) /\
  (forall tr, isRevealed (alertAt (run tr s) i) = false ->
     alertAt (run tr s) i = alertAt s i) /\
  (forall env c,
     alertAt (exec env c s) i = alertAt s i \/
     (isRevealed (alertAt s i) = false /\
      exists requestId cleartexts proof input prediction groundTruth score,
        c = ProcessPerformanceAnalysis requestId cleartexts proof /\
        requestToPredictionIdAt s requestId = i /\
        abi_decode_uint32x3 cleartexts = Ok (input, prediction, groundTruth) /\
        calculatePerformanceScore input prediction groundTruth = Ok score /\
        alertAt (exec env c s) i =
          {| performanceScore := score; alertLevel := determineAlertLevel score;
             needsRetraining := score <? 60; isRevealed := true |})) /\
  (forall tr0, s = run tr0 initial ->
     isRevealed (alertAt s i) = false -> alertAt s i = zero_alert).
Proof.
  intros [_ Hi]. repeat split.
  - intros tr Hrev. by apply run_alertAt_revealed.
  - intros tr Hun. by apply run_alertAt_unrevealed.
  - intros env c.
    destruct (exec_alertAt_written env c s i Hi) as [Hsame|(Hun & Hwritten)];
      [by left|right].
    split; [done|].
    destruct Hwritten as (r & ct & pf & a & b & g & score & ? & ? & ? & ? & ? & ?).
    by exists r, ct, pf, a, b, g, score.
  - intros tr0 -> Hun.
    by apply (run_wellformed tr0 initial initial_wellformed i).
Qed.

End AlertLifecycle.

(** C7 on the reference data: record 1 is zeroed while its request is
    pending, the callback of request 7 writes it, and once revealed with
    score 98 it keeps its alert through the later transactions. *)
Lemma alertState_written_once_witness :
  alertAt Reference.requested 1 = zero_alert /\
  alertAt Reference.revealed 1 <> alertAt Reference.requested 1 /\
  isRevealed (alertAt Reference.revealed 1) = true /\
  alertAt (run Reference.later Reference.revealed) 1 = alertAt Reference.revealed 1.
Proof.
  assert (Hpending : 1 <= 1 <= predictionCount Reference.requested)
    by (vm_compute; split; discriminate).
  assert (Hexists : 1 <= 1 <= predictionCount Reference.revealed)
    by (vm_compute; split; discriminate).
  destruct (alertState_written_once Reference.requested 1 Hpending)
    as (_ & _ & Hstep & Hzero).
  destruct (alertState_written_once Reference.revealed 1 Hexists) as (Hkept & _).
  split; [|split; [|split]].
  - apply (Hzero (take 2 Reference.history)); reflexivity.
  - intros Heq. apply (f_equal isRevealed) in Heq. vm_compute in Heq.
    discriminate Heq.
  - destruct (Hstep (Reference.env 0)
                (ProcessPerformanceAnalysis 7 Reference.cleartexts
                   (Reference.sign 7 Reference.cleartexts)))
      as [Hsame|(_ & r & ct & pf & a & b & g & score & _ & _ & _ & _ & Hnew)].
    + apply (f_equal isRevealed) in Hsame. vm_compute in Hsame.
      discriminate Hsame.
    + change (exec (Reference.env 0)
                (ProcessPerformanceAnalysis 7 Reference.cleartexts
                   (Reference.sign 7 Reference.cleartexts)) Reference.requested)
        with Reference.revealed in Hnew.
      rewrite Hnew. reflexivity.
  - apply Hkept. reflexivity.
Defined.

Section Registry.
Context `{Collaborators}.

(** C8. In every reachable state whose counter is not at its maximum,
    submitRecord succeeds; the identifiers handed out so far are 1 up to
    the counter, and the new one is the next integer, not among them; the
    record is stored under it and is never written again; its AlertState
    is unrevealed with zeroed fields; a model identifier that no earlier
    submission used (and whose hash collides with that of no earlier
    model) is not monitored before the call, and the call appends it to
    the monitored list with an aggregate of three encryptions of zero; a
    model identifier that an earlier submission used is already monitored,
    and the call leaves the monitored list and every aggregate as they
    were; and isModelMonitored answers true for the model after every
    later sequence of transactions. *)
Theorem submitRecord_registers tr env m input prediction groundTruth :
  let s := run tr initial in
  let newId := predictionCount s + 1 in
  let s' := exec env (RecordEncryptedPrediction m input prediction groundTruth) s in
  predictionCount s < uint_max 256 ->
  transact env (RecordEncryptedPrediction m input prediction groundTruth) s
  = Ok (s', [PredictionRecorded newId m (block_timestamp env)]) /\
  recorded_ids (run_log tr initial) = seqZ 1 (predictionCount s) /\
  (newId ∉ recorded_ids (run_log tr initial)) /\
  predictionCount s' = newId /\
  predictionAt s' newId =
    {| id := newId; encryptedInput := input; encryptedPrediction := prediction;
       encryptedGroundTruth := groundTruth; timestamp := block_timestamp env;
       modelId := m |} /\
  alertAt s' newId = zero_alert /\
  (isModelMonitored_from (monitoredModels s) m = false ->
   monitoredModels s' = monitoredModels s ++ [m] /\
   metricsAt s' m =
     {| encryptedAccuracy := FHE_asEuint32 0; encryptedDriftScore := FHE_asEuint32 0;
        encryptedErrorRate := FHE_asEuint32 0 |}) /\
  (m ∉ recorded_models (run_log tr initial) ->
   (forall m', m' ∈ recorded_models (run_log tr initial) ->
      keccak256 (String.list_byte_of_string m')
      = keccak256 (String.list_byte_of_string m) -> m' = m) ->
   (forall env', isModelMonitored m env' s = Ok (false, s, [])) /\
   monitoredModels s' = monitoredModels s ++ [m] /\
   metricsAt s' m =
     {| encryptedAccuracy := FHE_asEuint32 0; encryptedDriftScore := FHE_asEuint32 0;
        encryptedErrorRate := FHE_asEuint32 0 |}) /\
  (m ∈ recorded_models (run_log tr initial) ->
   (forall env', isModelMonitored m env' s = Ok (true, s, [])) /\
   monitoredModels s' = monitoredModels s /\
   (forall m', metricsAt s' m' = metricsAt s m')) /\
  (forall tr' env',
     isModelMonitored m env' (run tr' s') = Ok (true, run tr' s', []) /\
     predictionAt (run tr' s') newId = predictionAt s' newId).
Proof.
  intros s newId s' Hroom.
  assert (Hids : recorded_ids (run_log tr initial) = seqZ 1 (predictionCount s)).
  { rewrite run_recorded_ids. simpl. f_equal. subst s. lia. }
  assert (Hok : transact env (RecordEncryptedPrediction m input prediction groundTruth) s
                = Ok (s', [PredictionRecorded newId m (block_timestamp env)])).
  { subst s'. unfold exec. rewrite recordEncryptedPrediction_eq.
    destruct (Z.leb_spec (predictionCount s + 1) (uint_max 256)); [done|lia]. }
  assert (Hs' : s' =
    let s1 :=
      set_alert newId zero_alert
        (set_prediction newId
           {| id := newId; encryptedInput := input;
              encryptedPrediction := prediction;
              encryptedGroundTruth := groundTruth;
              timestamp := block_timestamp env; modelId := m |}
           (set_predictionCount newId s)) in
    if isModelMonitored_from (monitoredModels s) m then s1
    else set_metrics m
           {| encryptedAccuracy := FHE_asEuint32 0;
              encryptedDriftScore := FHE_asEuint32 0;
              encryptedErrorRate := FHE_asEuint32 0 |}
           (push_monitoredModel m s1)).
  { revert Hok. rewrite recordEncryptedPrediction_eq.
    destruct (Z.leb_spec (predictionCount s + 1) (uint_max 256)); [|lia].
    by intros [= <-]. }
  cbv zeta in Hs'.
  assert (Hcount : predictionCount s' = newId).
  { rewrite Hs'. by destruct (isModelMonitored_from (monitoredModels s) m). }
  assert (Hmonitored : isModelMonitored_from (monitoredModels s') m = true).
  { rewrite Hs'. destruct (isModelMonitored_from (monitoredModels s) m) eqn:Hm.
    - done.
    - simpl. apply isModelMonitored_from_snoc. }
  split; [done|]. split; [done|].
  split; [rewrite Hids, elem_of_seqZ; lia|].
  split; [done|].
  split.
  { rewrite Hs'. destruct (isModelMonitored_from (monitoredModels s) m);
      unfold predictionAt; simpl; by rewrite lookup_insert_eq. }
  split.
  { rewrite Hs'. destruct (isModelMonitored_from (monitoredModels s) m);
      unfold alertAt; simpl; by rewrite lookup_insert_eq. }
  split.
  { intros Hnew. rewrite Hs', Hnew. split; [done|]. apply metricsAt_set_metrics_eq. }
  split.
  { intros Hunseen Hcollision.
    assert (Hnew : isModelMonitored_from (monitoredModels s) m = false).
    { destruct (isModelMonitored_from (monitoredModels s) m) eqn:Hm; [|done].
      apply isModelMonitored_from_elem in Hm.
      apply list_elem_of_In, in_map_iff in Hm as (x & Hhash & Hx%list_elem_of_In).
      destruct (run_monitored_recorded tr initial x Hx) as [Hinit|Hseen].
      - by apply not_elem_of_nil in Hinit.
      - rewrite (Hcollision x Hseen Hhash) in Hseen. done. }
    split; [|split].
    - intros env'. unfold isModelMonitored, gets. by rewrite Hnew.
    - by rewrite Hs', Hnew.
    - rewrite Hs', Hnew. apply metricsAt_set_metrics_eq. }
  split.
  { intros Hseen.
    assert (Hold : isModelMonitored_from (monitoredModels s) m = true)
      by (by apply run_recorded_monitored).
    split; [|split].
    - intros env'. unfold isModelMonitored, gets. by rewrite Hold.
    - by rewrite Hs', Hold.
    - intros m'. by rewrite Hs', Hold. }
  intros tr' env'. split.
  - unfold isModelMonitored, gets. by rewrite run_isModelMonitored.
  - apply run_predictionAt. lia.
Qed.

End Registry.

(** C8 on the reference data: after the history, which submitted "m"
    only, the submission of the new model "n" gets identifier 2 after
    identifier 1, appends "n" to the monitored list and sets its
    aggregate to three encryptions of zero, and "n" is still monitored
    after a later request; a further submission of "m" leaves the
    monitored list as it was. *)
Lemma submitRecord_registers_witness :
  predictionCount
    (exec (Reference.env 0) Reference.second_submission
       (run Reference.history initial)) = 2 /\
  recorded_ids (run_log Reference.history initial) = [1] /\
  monitoredModels (run Reference.history initial) = ["m"] /\
  monitoredModels
    (exec (Reference.env 0) Reference.second_submission
       (run Reference.history initial)) = ["m"; "n"] /\
  metricsAt
    (exec (Reference.env 0) Reference.second_submission
       (run Reference.history initial)) "n" = Reference.metrics_of 1 1 1 /\
  monitoredModels
    (exec (Reference.env 0) Reference.repeated_submission
       (run Reference.history initial)) = ["m"] /\
  isModelMonitored "n" (Reference.env 0)
    (run [(Reference.env 9, RequestPerformanceAnalysis 2)]
       (exec (Reference.env 0) Reference.second_submission
          (run Reference.history initial)))
  = Ok (true,
        run [(Reference.env 9, RequestPerformanceAnalysis 2)]
          (exec (Reference.env 0) Reference.second_submission
             (run Reference.history initial)), []).
Proof.
  assert (Hroom : predictionCount (run Reference.history initial) < uint_max 256)
    by (vm_compute; reflexivity).
  assert (Hseen : recorded_models (run_log Reference.history initial) = ["m"])
    by reflexivity.
  assert (Hunseen : "n" ∉ recorded_models (run_log Reference.history initial)).
  { rewrite Hseen. intros [Heq|Hin]%elem_of_cons; [discriminate Heq|].
    by apply not_elem_of_nil in Hin. }
  assert (Hcollision :
    forall m', m' ∈ recorded_models (run_log Reference.history initial) ->
      Reference.hash (String.list_byte_of_string m')
      = Reference.hash (String.list_byte_of_string "n") -> m' = "n").
  { rewrite Hseen. intros m' [->|Hin]%elem_of_cons.
    - intros Hhash. vm_compute in Hhash. discriminate Hhash.
    - by apply not_elem_of_nil in Hin. }
  assert (Hagain : "m" ∈ recorded_models (run_log Reference.history initial)).
  { rewrite Hseen. apply elem_of_cons. by left. }
  destruct (submitRecord_registers (H := Reference.collaborators)
              Reference.history (Reference.env 0) "n"
              (Reference.handle 10) (Reference.handle 80) (Reference.handle 70) Hroom)
    as (_ & Hids & _ & Hcount & _ & _ & _ & Hnew & _ & Hlater).
  destruct (Hnew Hunseen Hcollision) as (_ & Hlist & Hfresh).
  destruct (submitRecord_registers (H := Reference.collaborators)
              Reference.history (Reference.env 0) "m"
              (Reference.handle 1) (Reference.handle 2) (Reference.handle 3) Hroom)
    as (_ & _ & _ & _ & _ & _ & _ & _ & Hold & _).
  destruct (Hold Hagain) as (_ & Hsame & _).
  split; [exact Hcount|]. split; [exact Hids|]. split; [reflexivity|].
  split; [etrans; [exact Hlist|reflexivity]|]. split; [exact Hfresh|].
  split; [etrans; [exact Hsame|reflexivity]|].
  apply (Hlater [(Reference.env 9, RequestPerformanceAnalysis 2)] (Reference.env 0)).
Defined.

Section MetricsPath.
Context `{Collaborators}.

(** C9. requestModelMetricsDecryption always succeeds and writes only the
    correlation from the oracle's request identifier to the model; the
    metrics callback, whether it succeeds or reverts, writes nothing.  The
    pair leaves every AlertState, every record, every aggregate, the
    counter, the monitored list and the analysis correlations as they
    were. *)
Theorem metrics_decryption_frame env env' s m requestId cleartexts proof :
  let s1 := exec env (RequestModelMetricsDecryption m) s in
  let s2 := exec env' (DecryptModelMetrics requestId cleartexts proof) s1 in
  (exists log, transact env (RequestModelMetricsDecryption m) s = Ok (s1, log)) /\
  s2 = s1 /\
  performanceAlerts s2 = performanceAlerts s /\
  predictions s2 = predictions s /\
  modelPerformance s2 = modelPerformance s /\
  predictionCount s2 = predictionCount s /\
  monitoredModels s2 = monitoredModels s /\
  requestToPredictionId s2 = requestToPredictionId s /\
  requestToModelId s2 = <[oracle_requestId env := m]> (requestToModelId s).
Proof.
  intros s1 s2.
  assert (Hs1 : s1 = set_requestToModelId (oracle_requestId env) m s).
  { subst s1. unfold exec. by rewrite requestModelMetricsDecryption_eq. }
  assert (Hs2 : s2 = s1).
  { subst s2. unfold exec. rewrite decryptModelMetrics_eq.
    repeat case_match; by simplify_eq. }
  split.
  { rewrite requestModelMetricsDecryption_eq, Hs1. cbv zeta. eauto. }
  split; [done|]. rewrite Hs2, Hs1. done.
Qed.

(** C10. The empty string is accepted as a model identifier by
    submitRecord (whenever the counter has room) and by
    requestModelMetricsDecryption, but the correlation the latter stores
    reads as "no request": every metrics callback for the identifier the
    oracle issued fails with "Invalid request", after any sequence of
    transactions in which the oracle does not issue that identifier for
    another metrics request. *)
Theorem empty_modelId_metrics_never_complete env s :
  let s1 := exec env (RequestModelMetricsDecryption "") s in
  (forall input prediction groundTruth,
     predictionCount s < uint_max 256 ->
     exists s' log,
       transact env (RecordEncryptedPrediction "" input prediction groundTruth) s
       = Ok (s', log) /\
       modelId (predictionAt s' (predictionCount s + 1)) = "") /\
  (exists log, transact env (RequestModelMetricsDecryption "") s = Ok (s1, log)) /\
  requestToModelIdAt s1 (oracle_requestId env) = "" /\
  (forall tr env' cleartexts proof,
     existsb (issues_metrics_request (oracle_requestId env)) tr = false ->
     transact env' (DecryptModelMetrics (oracle_requestId env) cleartexts proof)
       (run tr s1)
     = Reverted (ErrorString "Invalid request")).
Proof.
  intros s1.
  assert (Hs1 : s1 = set_requestToModelId (oracle_requestId env) "" s).
  { subst s1. unfold exec. by rewrite requestModelMetricsDecryption_eq. }
  assert (Hstored : requestToModelIdAt s1 (oracle_requestId env) = "").
  { rewrite Hs1. unfold_storage. by rewrite lookup_insert_eq. }
  split; [|split; [|split]].
  - intros input prediction groundTruth Hroom.
    rewrite recordEncryptedPrediction_eq.
    destruct (Z.leb_spec (predictionCount s + 1) (uint_max 256)); [|lia].
    eexists _, _. split; [done|]. cbv zeta.
    destruct (isModelMonitored_from (monitoredModels s) "");
      unfold predictionAt; simpl; by rewrite lookup_insert_eq.
  - rewrite requestModelMetricsDecryption_eq, Hs1. cbv zeta. eauto.
  - done.
  - intros tr env' cleartexts proof Hfresh.
    rewrite decryptModelMetrics_eq, run_requestToModelIdAt, Hstored by done.
    done.
Qed.

End MetricsPath.

(** C10 on the reference data: the oracle answers request 8 to a metrics
    request for the empty model; after two more transactions its callback
    is still refused. *)
Lemma empty_modelId_metrics_never_complete_witness :
  (exists s' log,
     transact (Reference.env 8) Reference.empty_submission Reference.revealed
     = Ok (s', log) /\
     modelId (predictionAt s' (predictionCount Reference.revealed + 1)) = "") /\
  transact (Reference.env 0)
    (DecryptModelMetrics 8 Reference.metrics_cleartexts
       (Reference.sign 8 Reference.metrics_cleartexts))
    (run Reference.later
       (exec (Reference.env 8) (RequestModelMetricsDecryption "") Reference.revealed))
  = Reverted (ErrorString "Invalid request").
Proof.
  destruct (empty_modelId_metrics_never_complete (Reference.env 8) Reference.revealed)
    as (Hsubmit & _ & _ & Hrefused).
  split.
  - apply (Hsubmit (Reference.handle 1) (Reference.handle 2) (Reference.handle 3)).
    vm_compute. reflexivity.
  - apply (Hrefused Reference.later (Reference.env 0)). reflexivity.
Defined.

(** * Further properties of the registry *)

Section RegistryShape.
Context `{Collaborators}.

Lemma isModelMonitored_from_member models m :
  m ∈ models -> isModelMonitored_from models m = true.
Proof.
  intros Hin. apply isModelMonitored_from_elem.
  apply list_elem_of_In.
  apply (in_map (fun x => keccak256 (String.list_byte_of_string x))).
  by apply list_elem_of_In.
Qed.

Lemma initial_registry_wellformed : registry_wellformed initial.
Proof.
  unfold registry_wellformed; simpl. repeat split; try done.
  - intros i Hi. lia.
  - intros m Hm. by apply not_elem_of_nil in Hm.
  - constructor.
Qed.

Lemma exec_registry_wellformed env c s :
  registry_wellformed s -> registry_wellformed (exec env c s).
Proof.
  intros Hs. pose proof Hs as (Hcount & Hrecords & Hnone & Hmodels & Hdistinct & Hzero).
  by_call c.
  - (* a submission for a monitored model *)
    unfold registry_wellformed, predictionAt; simpl.
    split; [lia|]. split; [|split; [|split; [|split]]]; try done.
    + intros i Hi. destruct (decide (i = predictionCount s + 1)) as [->|Hne].
      * rewrite lookup_insert_eq. eexists. by repeat split.
      * rewrite lookup_insert_ne by done. apply Hrecords. lia.
    + intros i Hi. rewrite lookup_insert_ne by lia. apply Hnone. lia.
    + intros m' Hm'. destruct (Hmodels m' Hm') as (i & Hi & Hmodel).
      exists i. split; [lia|]. rewrite lookup_insert_ne by lia. done.
    + rewrite lookup_insert_ne by lia. done.
  - (* a submission for a new model *)
    unfold registry_wellformed, predictionAt; simpl.
    split; [lia|]. split; [|split; [|split; [|split]]].
    + intros i Hi. destruct (decide (i = predictionCount s + 1)) as [->|Hne].
      * rewrite lookup_insert_eq. eexists. repeat split.
        simpl. apply isModelMonitored_from_snoc.
      * rewrite lookup_insert_ne by done.
        destruct (Hrecords i) as (p & Hp & Hid & Hmon); [lia|].
        exists p. repeat split; try done. by apply isModelMonitored_from_app.
    + intros i Hi. rewrite lookup_insert_ne by lia. apply Hnone. lia.
    + intros m' [Hm'|Hm']%elem_of_app.
      * destruct (Hmodels m' Hm') as (i & Hi & Hmodel).
        exists i. split; [lia|]. rewrite lookup_insert_ne by lia. done.
      * apply list_elem_of_singleton in Hm' as ->.
        exists (predictionCount s + 1). split; [lia|].
        by rewrite lookup_insert_eq.
    + rewrite map_app. simpl. apply NoDup_app. split; [done|]. split.
      * intros h Hh Hnew. apply list_elem_of_singleton in Hnew as ->.
        apply isModelMonitored_from_elem in Hh. congruence.
      * apply NoDup_singleton.
    + rewrite lookup_insert_ne by lia. done.
  - (* a callback *)
    unfold registry_wellformed, predictionAt; simpl.
    repeat split; try done.
    rewrite lookup_insert_ne; [done|].
    intros Heq. rewrite Heq in *. done.
Qed.

Lemma run_registry_wellformed tr s :
  registry_wellformed s -> registry_wellformed (run tr s).
Proof.
  revert s. induction tr as [|[env c] tr IH]; intros s Hs; simpl; [done|].
  apply IH. by apply exec_registry_wellformed.
Qed.

End RegistryShape.

Section RegistryReadings.
Context `{Collaborators}.

(** X1. In every reachable state the records sit exactly at the
    identifiers 1 .. predictionCount: each is stored under its own
    identifier with a model that isModelMonitored accepts, and every other
    identifier reads as the all-zero record. *)
Theorem records_sit_at_1_to_count tr :
  let s := run tr initial in
  0 <= predictionCount s /\
  (forall i env, 1 <= i <= predictionCount s ->
     id (predictionAt s i) = i /\
     isModelMonitored (modelId (predictionAt s i)) env s = Ok (true, s, [])) /\
  (forall i, i < 1 \/ predictionCount s < i -> predictionAt s i = zero_prediction).
Proof.
  intros s.
  destruct (run_registry_wellformed tr initial initial_registry_wellformed)
    as (Hcount & Hrecords & Hnone & _).
  fold s in Hcount, Hrecords, Hnone.
  split; [done|]. split.
  - intros i env Hi. destruct (Hrecords i Hi) as (p & Hp & Hid & Hmon).
    unfold isModelMonitored, gets, predictionAt. rewrite Hp. simpl.
    by rewrite Hid, Hmon.
  - intros i Hi. unfold predictionAt. by rewrite (Hnone i Hi).
Qed.

(** X2. In every reachable state no two monitored models share a hash, so
    no model is listed twice, and every monitored model is the model of a
    stored record. *)
Theorem monitored_models_distinct_and_used tr :
  let s := run tr initial in
  NoDup (map (fun m => keccak256 (String.list_byte_of_string m)) (monitoredModels s)) /\
  NoDup (monitoredModels s) /\
  (forall m, m ∈ monitoredModels s ->
     exists i, 1 <= i <= predictionCount s /\ modelId (predictionAt s i) = m).
Proof.
  intros s.
  destruct (run_registry_wellformed tr initial initial_registry_wellformed)
    as (_ & _ & _ & Hmodels & Hdistinct & _).
  fold s in Hmodels, Hdistinct.
  split; [done|]. split; [|done].
  revert Hdistinct. generalize (monitoredModels s). intros models.
  induction models as [|m models IH]; simpl; [constructor|].
  intros [Hfresh Hrest]%NoDup_cons. apply NoDup_cons. split; [|by apply IH].
  intros Hin. apply Hfresh. apply list_elem_of_In.
  apply (in_map (fun x => keccak256 (String.list_byte_of_string x))).
  by apply list_elem_of_In.
Qed.

Lemma getModelFromHash_from_Ok models hash m :
  getModelFromHash_from models hash = Ok m ->
  m ∈ models /\ keccak256 (String.list_byte_of_string m) = hash.
Proof.
  induction models as [|x models IH]; simpl; [done|].
  unfold bytes32ToUint.
  destruct (Z.eqb_spec (keccak256 (String.list_byte_of_string x)) hash) as [Heq|Hne].
  - intros [= <-]. split; [apply elem_of_cons; by left|done].
  - intros [Hin Hhash]%IH. split; [apply elem_of_cons; by right|done].
Qed.

Lemma getModelFromHash_from_Reverted models hash r :
  getModelFromHash_from models hash = Reverted r ->
  r = ErrorString "Model not found" /\
  forall m, m ∈ models -> keccak256 (String.list_byte_of_string m) <> hash.
Proof.
  induction models as [|x models IH]; simpl.
  - intros [= <-]. split; [done|]. intros m Hm. by apply not_elem_of_nil in Hm.
  - unfold bytes32ToUint.
    destruct (Z.eqb_spec (keccak256 (String.list_byte_of_string x)) hash) as [Heq|Hne];
      [done|].
    intros [Hr Hnone]%IH. split; [done|].
    intros m [->|Hin]%elem_of_cons; [done|by apply Hnone].
Qed.

(** X3. getModelFromHash reads only: when it returns, the model it
    returns is in the monitored list and has the requested hash; when it
    reverts, the reason is "Model not found" and no monitored model has
    that hash.  On the hash of a model identifier it returns exactly when
    isModelMonitored accepts the identifier. *)
Theorem getModelFromHash_finds_monitored env s hash :
  (forall m s' log,
     getModelFromHash hash env s = Ok (m, s', log) ->
     s' = s /\ log = [] /\ m ∈ monitoredModels s /\
     bytes32ToUint (keccak256 (String.list_byte_of_string m)) = hash) /\
  (forall r,
     getModelFromHash hash env s = Reverted r ->
     r = ErrorString "Model not found" /\
     forall m, m ∈ monitoredModels s ->
       bytes32ToUint (keccak256 (String.list_byte_of_string m)) <> hash) /\
  (forall m,
     hash = bytes32ToUint (keccak256 (String.list_byte_of_string m)) ->
     isModelMonitored_from (monitoredModels s) m = true <->
     exists m', getModelFromHash hash env s = Ok (m', s, [])).
Proof.
  unfold getModelFromHash, gets, lift, bytes32ToUint.
  cbv [mbind M_bind]. simpl.
  split; [|split].
  - intros m s' log.
    destruct (getModelFromHash_from (monitoredModels s) hash) as [m'|r] eqn:Hfound;
      [|done].
    intros [= <- <- <-].
    pose proof (getModelFromHash_from_Ok _ _ _ Hfound) as [Hin Hhash]. done.
  - intros r.
    destruct (getModelFromHash_from (monitoredModels s) hash) as [m'|r'] eqn:Hfound;
      [done|].
    intros [= <-]. by apply getModelFromHash_from_Reverted in Hfound.
  - intros m ->.
    destruct (getModelFromHash_from (monitoredModels s) _) as [m'|r] eqn:Hfound.
    + apply getModelFromHash_from_Ok in Hfound as [Hin Hhash]. split; [eauto|].
      intros _. apply isModelMonitored_from_elem. rewrite <- Hhash.
      apply list_elem_of_In.
      apply (in_map (fun x => keccak256 (String.list_byte_of_string x))).
      by apply list_elem_of_In.
    + pose proof (getModelFromHash_from_Reverted _ _ _ Hfound) as [_ Hnone]. split.
      * intros Hmon%isModelMonitored_from_elem.
        apply list_elem_of_In, in_map_iff in Hmon as (x & Hx & Hin%list_elem_of_In).
        by destruct (Hnone x Hin).
      * intros [m' Hm']. done.
Qed.

End RegistryReadings.

(** X1 on the reference data: record 1 of model "m". *)
Lemma records_sit_at_1_to_count_witness :
  id (predictionAt (run Reference.history initial) 1) = 1 /\
  predictionAt (run Reference.history initial) 2 = zero_prediction.
Proof.
  destruct (records_sit_at_1_to_count Reference.history) as (_ & Hrecords & Hnone).
  split.
  - apply (Hrecords 1 (Reference.env 0)). vm_compute. split; discriminate.
  - apply Hnone. right. vm_compute. reflexivity.
Defined.

(** X2 on the reference data: the one monitored model "m" has record 1. *)
Lemma monitored_models_distinct_and_used_witness :
  exists i,
    1 <= i <= predictionCount (run Reference.history initial) /\
    modelId (predictionAt (run Reference.history initial) i) = "m".
Proof.
  destruct (monitored_models_distinct_and_used Reference.history) as (_ & _ & Hused).
  apply Hused. apply elem_of_cons. left. reflexivity.
Defined.

(** X3 on the reference data: the hash of "m" is found, that of "ghost"
    is not. *)
Lemma getModelFromHash_finds_monitored_witness :
  (exists m',
     getModelFromHash (Reference.hash (String.list_byte_of_string "m"))
       (Reference.env 0) Reference.revealed = Ok (m', Reference.revealed, [])) /\
  "m" ∈ monitoredModels Reference.revealed /\
  (forall m, m ∈ monitoredModels Reference.revealed ->
     bytes32ToUint (Reference.hash (String.list_byte_of_string m))
     <> Reference.hash (String.list_byte_of_string "ghost")).
Proof.
  destruct (getModelFromHash_finds_monitored (Reference.env 0) Reference.revealed
              (Reference.hash (String.list_byte_of_string "m")))
    as (Hok & _ & Hiff).
  destruct (getModelFromHash_finds_monitored (Reference.env 0) Reference.revealed
              (Reference.hash (String.list_byte_of_string "ghost")))
    as (_ & Hrev & _).
  split; [|split].
  - apply (Hiff "m"); reflexivity.
  - apply (Hok "m" Reference.revealed []). reflexivity.
  - apply (Hrev (ErrorString "Model not found")). reflexivity.
Defined.

Section Verdicts.
Context `{Collaborators}.

Lemma initial_verdicts_consistent : verdicts_consistent initial.
Proof.
  intros i. unfold alertAt; simpl. rewrite lookup_empty. done.
Qed.

Lemma exec_verdicts_consistent env c s :
  verdicts_consistent s -> verdicts_consistent (exec env c s).
Proof.
  intros Hs. by_call c.
  - intros i. destruct (decide (predictionCount s + 1 = i)) as [<-|Hne].
    + unfold_storage. by rewrite lookup_insert_eq.
    + specialize (Hs i). unfold_storage. by rewrite lookup_insert_ne.
  - intros i. destruct (decide (predictionCount s + 1 = i)) as [<-|Hne].
    + unfold_storage. by rewrite lookup_insert_eq.
    + specialize (Hs i). unfold_storage. by rewrite lookup_insert_ne.
  - intros i. destruct (decide (requestToPredictionIdAt s requestId = i)) as [<-|Hne].
    + by rewrite alertAt_set_alert_eq.
    + rewrite alertAt_set_alert_ne by done. apply Hs.
Qed.

Lemma run_verdicts_consistent tr s :
  verdicts_consistent s -> verdicts_consistent (run tr s).
Proof.
  revert s. induction tr as [|[env c] tr IH]; intros s Hs; simpl; [done|].
  apply IH. by apply exec_verdicts_consistent.
Qed.

(** X4. getDecryptedAlert never reverts and never writes.  In every
    reachable state, for every identifier, an unrevealed reading is
    (0, "", false, false), and a revealed reading has a score between 0
    and 100, the level determineAlertLevel gives that score, and the
    retraining flag exactly when the score is below 60; so a Critical
    reading always asks for retraining and a Notice or Normal one never
    does. *)
Theorem getDecryptedAlert_reading tr env i :
  let s := run tr initial in
  exists score level retraining revealed,
    getDecryptedAlert i env s = Ok ((score, level, retraining, revealed), s, []) /\
    (revealed = false -> score = 0 /\ level = "" /\ retraining = false) /\
    (revealed = true ->
       0 <= score <= 100 /\
       level = determineAlertLevel score /\
       retraining = (score <? 60) /\
       (level = "Critical" -> retraining = true) /\
       (level = "Notice" \/ level = "Normal" -> retraining = false)).
Proof.
  intros s.
  pose proof (run_wellformed tr initial initial_wellformed i) as [Hrange Hzero].
  pose proof (run_verdicts_consistent tr initial initial_verdicts_consistent i)
    as Hverdict.
  fold s in Hrange, Hzero, Hverdict.
  exists (performanceScore (alertAt s i)), (alertLevel (alertAt s i)),
    (needsRetraining (alertAt s i)), (isRevealed (alertAt s i)).
  split; [done|]. split.
  - intros Hun. by rewrite (Hzero Hun).
  - intros Hrev. destruct (Hverdict Hrev) as [Hlevel Hflag].
    split; [done|]. split; [done|]. split; [done|].
    rewrite Hlevel, Hflag. unfold determineAlertLevel.
    split.
    + repeat case_match; try done; lia.
    + repeat case_match; intros [|]; try done; lia.
Qed.

End Verdicts.

(** X4 on the reference data: record 1 reads (98, "Normal", false, true). *)
Lemma getDecryptedAlert_reading_witness :
  exists score level retraining revealed,
    getDecryptedAlert 1 (Reference.env 0) (run Reference.history initial)
    = Ok ((score, level, retraining, revealed), run Reference.history initial, []) /\
    (revealed = false -> score = 0 /\ level = "" /\ retraining = false) /\
    (revealed = true ->
       0 <= score <= 100 /\
       level = determineAlertLevel score /\
       retraining = (score <? 60) /\
       (level = "Critical" -> retraining = true) /\
       (level = "Notice" \/ level = "Normal" -> retraining = false)).
Proof.
  exact (getDecryptedAlert_reading Reference.history (Reference.env 0) 1).
Defined.

Section Protocol.
Context `{Collaborators}.

(** X5. A callback for a request identifier the oracle never handed out
    for that kind of request is refused with "Invalid request", whatever
    the payload and even when the proof verifies: in a state reached from
    deployment, an analysis callback needs an earlier analysis request
    answered with that identifier, and a metrics callback needs an earlier
    metrics request answered with it. *)
Theorem unissued_request_rejected tr r env cleartexts proof :
  (existsb (issues_analysis_request r) tr = false ->
   transact env (ProcessPerformanceAnalysis r cleartexts proof) (run tr initial)
   = Reverted (ErrorString "Invalid request")) /\
  (existsb (issues_metrics_request r) tr = false ->
   transact env (DecryptModelMetrics r cleartexts proof) (run tr initial)
   = Reverted (ErrorString "Invalid request")).
Proof.
  split; intros Hfresh.
  - rewrite processPerformanceAnalysis_eq. cbv zeta.
    rewrite run_requestToPredictionIdAt by done.
    unfold requestToPredictionIdAt; simpl. by rewrite lookup_empty.
  - rewrite decryptModelMetrics_eq, run_requestToModelIdAt by done.
    unfold requestToModelIdAt; simpl. by rewrite lookup_empty.
Qed.

(** X6. In every reachable state requestPerformanceAnalysis accepts the
    identifier 0, which no record has; the correlation it stores reads as
    "no request", so every callback for the identifier the oracle answered
    fails with "Invalid request", after any sequence of transactions in
    which the oracle does not answer another analysis request with it. *)
Theorem request_for_identifier_zero tr env :
  let s := run tr initial in
  let s1 := exec env (RequestPerformanceAnalysis 0) s in
  (exists log, transact env (RequestPerformanceAnalysis 0) s = Ok (s1, log)) /\
  (forall tr' env' cleartexts proof,
     existsb (issues_analysis_request (oracle_requestId env)) tr' = false ->
     transact env' (ProcessPerformanceAnalysis (oracle_requestId env) cleartexts proof)
       (run tr' s1)
     = Reverted (ErrorString "Invalid request")).
Proof.
  intros s s1.
  destruct (run_registry_wellformed tr initial initial_registry_wellformed)
    as (_ & _ & _ & _ & _ & Hzero).
  fold s in Hzero.
  assert (Hun : isRevealed (alertAt s 0) = false)
    by (unfold alertAt; by rewrite Hzero).
  assert (Hs1 : s1 = set_requestToPredictionId (oracle_requestId env) 0 s).
  { subst s1. unfold exec. by rewrite requestPerformanceAnalysis_eq, Hun. }
  split.
  - rewrite requestPerformanceAnalysis_eq, Hun, Hs1. cbv zeta. eauto.
  - intros tr' env' cleartexts proof Hfresh.
    rewrite processPerformanceAnalysis_eq. cbv zeta.
    rewrite run_requestToPredictionIdAt, Hs1 by done.
    unfold_storage. by rewrite lookup_insert_eq.
Qed.

(** X7. Once the alert of an existing record is revealed, the record is
    closed for good: after any sequence of transactions a new
    requestPerformanceAnalysis for it fails with "Already analyzed", and a
    callback for any request identifier correlated with it, such as a
    second request that was still pending, fails with
    "Already processed". *)
Theorem revealed_record_is_closed s i tr env :
  1 <= i <= predictionCount s ->
  isRevealed (alertAt s i) = true ->
  transact env (RequestPerformanceAnalysis i) (run tr s)
  = Reverted (ErrorString "Already analyzed") /\
  (forall r cleartexts proof,
     requestToPredictionIdAt (run tr s) r = i ->
     transact env (ProcessPerformanceAnalysis r cleartexts proof) (run tr s)
     = Reverted (ErrorString "Already processed")).
Proof.
  intros [Hpos Hi] Hrev.
  assert (Hkept : isRevealed (alertAt (run tr s) i) = true)
    by (by rewrite run_alertAt_revealed).
  split.
  - by rewrite requestPerformanceAnalysis_eq, Hkept.
  - intros r cleartexts proof Htarget.
    rewrite processPerformanceAnalysis_eq. cbv zeta. rewrite Htarget, Hkept.
    destruct (Z.eqb_spec i 0); [lia|done].
Qed.

(** X8. The handles sent to the oracle for a record are the ones it was
    submitted with: after a submission and any later transactions, a
    requestPerformanceAnalysis for the new identifier either finds the
    alert revealed, or asks for the decryption of the submitted input,
    prediction and ground truth, in that order, with the analysis callback
    as selector, and then announces the request. *)
Theorem submitted_handles_reach_oracle env s m input prediction groundTruth tr env' :
  predictionCount s < uint_max 256 ->
  let newId := predictionCount s + 1 in
  let s' := run tr (exec env (RecordEncryptedPrediction m input prediction groundTruth) s) in
  (isRevealed (alertAt s' newId) = true /\
   transact env' (RequestPerformanceAnalysis newId) s'
   = Reverted (ErrorString "Already analyzed")) \/
  (isRevealed (alertAt s' newId) = false /\
   transact env' (RequestPerformanceAnalysis newId) s'
   = Ok (set_requestToPredictionId (oracle_requestId env') newId s',
         [DecryptionRequested
            [FHE_toBytes32 input; FHE_toBytes32 prediction; FHE_toBytes32 groundTruth]
            processPerformanceAnalysis_selector (oracle_requestId env');
          PerformanceAnalysisRequested newId])).
Proof.
  intros Hroom newId s'.
  assert (Hstored :
    predictionAt s' newId =
    {| id := newId; encryptedInput := input; encryptedPrediction := prediction;
       encryptedGroundTruth := groundTruth; timestamp := block_timestamp env;
       modelId := m |}).
  { subst s'. rewrite run_predictionAt.
    - unfold exec. rewrite recordEncryptedPrediction_eq.
      destruct (Z.leb_spec (predictionCount s + 1) (uint_max 256)); [|lia].
      cbv zeta. destruct (isModelMonitored_from (monitoredModels s) m);
        unfold predictionAt; simpl; by rewrite lookup_insert_eq.
    - unfold exec. rewrite recordEncryptedPrediction_eq.
      destruct (Z.leb_spec (predictionCount s + 1) (uint_max 256)); [|lia].
      cbv zeta. destruct (isModelMonitored_from (monitoredModels s) m);
        simpl; subst newId; lia. }
  rewrite requestPerformanceAnalysis_eq.
  destruct (isRevealed (alertAt s' newId)); [by left|right].
  split; [done|]. cbv zeta. by rewrite Hstored.
Qed.

(** X9. Request, callback and reading compose: for an existing,
    unrevealed record, after requestPerformanceAnalysis and a callback for
    the identifier the oracle answered, with a verifying proof and a
    payload whose score is computable, getDecryptedAlert returns that
    score, its level, its retraining flag and revealed = true, and keeps
    returning them after any later transactions. *)
Theorem analysis_round_trip s i env_request env_callback env_read tr
    cleartexts proof input prediction groundTruth score :
  1 <= i <= predictionCount s ->
  isRevealed (alertAt s i) = false ->
  FHE_verifySignatures (oracle_requestId env_request) cleartexts proof = true ->
  abi_decode_uint32x3 cleartexts = Ok (input, prediction, groundTruth) ->
  calculatePerformanceScore input prediction groundTruth = Ok score ->
  let s1 := exec env_request (RequestPerformanceAnalysis i) s in
  let s2 := exec env_callback
              (ProcessPerformanceAnalysis (oracle_requestId env_request) cleartexts proof)
              s1 in
  getDecryptedAlert i env_read (run tr s2)
  = Ok ((score, determineAlertLevel score, score <? 60, true), run tr s2, []).
Proof.
  intros [Hpos Hi] Hun Hvalid Hdecode Hscore s1 s2.
  assert (Hs1 : s1 = set_requestToPredictionId (oracle_requestId env_request) i s).
  { subst s1. unfold exec. by rewrite requestPerformanceAnalysis_eq, Hun. }
  assert (Htarget : requestToPredictionIdAt s1 (oracle_requestId env_request) = i).
  { rewrite Hs1. unfold_storage. by rewrite lookup_insert_eq. }
  assert (Hun1 : isRevealed (alertAt s1 i) = false) by (by rewrite Hs1).
  assert (Hs2 : s2 = set_alert i
                       {| performanceScore := score;
                          alertLevel := determineAlertLevel score;
                          needsRetraining := score <? 60;
                          isRevealed := true |} s1).
  { subst s2. unfold exec. rewrite processPerformanceAnalysis_eq. cbv zeta.
    rewrite Htarget, Hun1, Hvalid, Hdecode, Hscore.
    destruct (Z.eqb_spec i 0); [lia|done]. }
  assert (Halert : alertAt (run tr s2) i =
                   {| performanceScore := score;
                      alertLevel := determineAlertLevel score;
                      needsRetraining := score <? 60;
                      isRevealed := true |}).
  { rewrite run_alertAt_revealed.
    - by rewrite Hs2, alertAt_set_alert_eq.
    - by rewrite Hs2, Hs1.
    - by rewrite Hs2, alertAt_set_alert_eq. }
  unfold getDecryptedAlert, gets. cbv [mbind M_bind mret M_ret]. simpl.
  by rewrite Halert.
Qed.

(** X10. A callback that succeeds writes one alert and nothing else:
    records, aggregates, both correlation maps, the counter and the
    monitored list are unchanged, and every alert other than the target's
    is unchanged; it emits the library's DecryptionFulfilled for the
    request and then PerformanceAlertDecrypted for the target. *)
Theorem callback_writes_one_alert env s requestId cleartexts proof s' log :
  transact env (ProcessPerformanceAnalysis requestId cleartexts proof) s = Ok (s', log) ->
  let target := requestToPredictionIdAt s requestId in
  predictions s' = predictions s /\
  modelPerformance s' = modelPerformance s /\
  requestToPredictionId s' = requestToPredictionId s /\
  requestToModelId s' = requestToModelId s /\
  predictionCount s' = predictionCount s /\
  monitoredModels s' = monitoredModels s /\
  (forall j, j <> target -> alertAt s' j = alertAt s j) /\
  log = [DecryptionFulfilled requestId; PerformanceAlertDecrypted target].
Proof.
  intros (input & prediction & groundTruth & score & _ & _ & _ & _ & _ & -> & ->)
    %processPerformanceAnalysis_Ok target.
  repeat split. intros j Hj. by rewrite alertAt_set_alert_ne.
Qed.

End Protocol.

(** X5 on the reference data: the history issued request 7 for an
    analysis only. *)
Lemma unissued_request_rejected_witness :
  transact (Reference.env 0)
    (ProcessPerformanceAnalysis 8 Reference.cleartexts
       (Reference.sign 8 Reference.cleartexts)) (run Reference.history initial)
  = Reverted (ErrorString "Invalid request") /\
  transact (Reference.env 0)
    (DecryptModelMetrics 7 Reference.cleartexts
       (Reference.sign 7 Reference.cleartexts)) (run Reference.history initial)
  = Reverted (ErrorString "Invalid request").
Proof.
  split.
  - apply (unissued_request_rejected Reference.history 8). reflexivity.
  - apply (unissued_request_rejected Reference.history 7). reflexivity.
Defined.

(** X6 on the reference data: the oracle answers 5 to a request for
    identifier 0. *)
Lemma request_for_identifier_zero_witness :
  transact (Reference.env 0)
    (ProcessPerformanceAnalysis 5 Reference.cleartexts
       (Reference.sign 5 Reference.cleartexts))
    (run Reference.later
       (exec (Reference.env 5) (RequestPerformanceAnalysis 0)
          (run Reference.history initial)))
  = Reverted (ErrorString "Invalid request").
Proof.
  destruct (request_for_identifier_zero Reference.history (Reference.env 5))
    as [_ Hrefused].
  apply (Hrefused Reference.later). reflexivity.
Defined.

(** X7 on the reference data: requests 7 and 8 are pending for record 1;
    after the callback of 7, the callback of 8 and a new request are
    refused. *)
Lemma revealed_record_is_closed_witness :
  transact (Reference.env 9) (RequestPerformanceAnalysis 1)
    (run Reference.later Reference.first_completed)
  = Reverted (ErrorString "Already analyzed") /\
  transact (Reference.env 9)
    (ProcessPerformanceAnalysis 8 Reference.cleartexts
       (Reference.sign 8 Reference.cleartexts))
    (run Reference.later Reference.first_completed)
  = Reverted (ErrorString "Already processed").
Proof.
  assert (Hexists : 1 <= 1 <= predictionCount Reference.first_completed)
    by (vm_compute; split; discriminate).
  assert (Hrev : isRevealed (alertAt Reference.first_completed 1) = true)
    by reflexivity.
  destruct (revealed_record_is_closed Reference.first_completed 1 Reference.later
              (Reference.env 9) Hexists Hrev) as [Hrequest Hcallback].
  split; [exact Hrequest|]. apply Hcallback. reflexivity.
Defined.

(** X8 on the reference data: the request for record 1 sends the handles
    101, 91 and 93 it was submitted with. *)
Lemma submitted_handles_reach_oracle_witness :
  transact (Reference.env 7) (RequestPerformanceAnalysis 1) Reference.submitted
  = Ok (set_requestToPredictionId 7 1 Reference.submitted,
        [DecryptionRequested [101; 91; 93] processPerformanceAnalysis_selector 7;
         PerformanceAnalysisRequested 1]).
Proof.
  assert (Hroom : predictionCount Reference.start < uint_max 256)
    by (vm_compute; reflexivity).
  destruct (submitted_handles_reach_oracle (H := Reference.collaborators)
              (Reference.env 0) Reference.start "m"
              (Reference.handle 100) (Reference.handle 90) (Reference.handle 92)
              [] (Reference.env 7) Hroom) as [[Hrev _]|[_ Hsent]].
  - vm_compute in Hrev. discriminate Hrev.
  - exact Hsent.
Defined.

(** X9 on the reference data: record 1 is requested, completed with
    (100, 90, 92) and read back after two more transactions. *)
Lemma analysis_round_trip_witness :
  getDecryptedAlert 1 (Reference.env 0) (run Reference.later Reference.revealed)
  = Ok ((98, "Normal", false, true), run Reference.later Reference.revealed, []).
Proof.
  assert (Hexists : 1 <= 1 <= predictionCount Reference.submitted)
    by (vm_compute; split; discriminate).
  exact (analysis_round_trip Reference.submitted 1 (Reference.env 7) (Reference.env 0)
           (Reference.env 0) Reference.later Reference.cleartexts
           (Reference.sign 7 Reference.cleartexts) 100 90 92 98
           Hexists eq_refl eq_refl eq_refl eq_refl).
Defined.

(** X10 on the reference data: the callback of request 7. *)
Lemma callback_writes_one_alert_witness :
  predictions Reference.revealed = predictions Reference.requested /\
  alertAt Reference.revealed 2 = alertAt Reference.requested 2.
Proof.
  assert (Hrun : transact (Reference.env 0)
            (ProcessPerformanceAnalysis 7 Reference.cleartexts
               (Reference.sign 7 Reference.cleartexts)) Reference.requested
          = Ok (Reference.revealed, [DecryptionFulfilled 7; PerformanceAlertDecrypted 1]))
    by reflexivity.
  destruct (callback_writes_one_alert _ _ _ _ _ _ _ Hrun)
    as (Hrecords & _ & _ & _ & _ & _ & Hothers & _).
  split; [exact Hrecords|]. apply Hothers. vm_compute. discriminate.
Defined.

Lemma abi_decode_uint32x3_Reverted data r :
  abi_decode_uint32x3 data = Reverted r -> r = AbiDecodeRevert.
Proof.
  unfold abi_decode_uint32x3.
  destruct (Z.of_nat (length data) <? 96); [by intros [= <-]|].
  destruct (_ && _); [done|by intros [= <-]].
Qed.

Section Aggregates.
Context `{Collaborators}.

(** X11. A submission touches at most the aggregate of its own model: the
    aggregate of every other model is unchanged; for a model already
    monitored the aggregate and the monitored list are unchanged; for a
    model not yet monitored the aggregate is overwritten with three
    encryptions of zero, so whatever updateModelMetrics had accumulated
    for that model before its first record is discarded. *)
Theorem submission_resets_new_aggregate env env0 s m input prediction groundTruth
    accuracy drift errorRate :
  predictionCount s < uint_max 256 ->
  let fresh := {| encryptedAccuracy := FHE_asEuint32 0;
                  encryptedDriftScore := FHE_asEuint32 0;
                  encryptedErrorRate := FHE_asEuint32 0 |} in
  let s' := exec env (RecordEncryptedPrediction m input prediction groundTruth) s in
  (forall m', m' <> m -> metricsAt s' m' = metricsAt s m') /\
  (isModelMonitored_from (monitoredModels s) m = true ->
   metricsAt s' m = metricsAt s m /\ monitoredModels s' = monitoredModels s) /\
  (isModelMonitored_from (monitoredModels s) m = false ->
   metricsAt s' m = fresh /\
   metricsAt
     (exec env (RecordEncryptedPrediction m input prediction groundTruth)
        (exec env0 (UpdateModelMetrics m accuracy drift errorRate) s)) m = fresh).
Proof.
  intros Hroom fresh s'. subst s'. unfold exec.
  rewrite updateModelMetrics_eq, !recordEncryptedPrediction_eq. simpl.
  destruct (Z.leb_spec (predictionCount s + 1) (uint_max 256)); [|lia].
  cbv zeta. split; [|split].
  - intros m' Hne. destruct (isModelMonitored_from (monitoredModels s) m); [done|].
    by rewrite metricsAt_set_metrics_ne.
  - intros ->. done.
  - intros ->. by rewrite !metricsAt_set_metrics_eq.
Qed.

(** X12. updateModelMetrics accumulates and is local to its model: two
    updates of one model add both deltas, in order, onto the stored
    accumulators, so repeating an update is not idempotent; and updates of
    two different models commute, giving the same storage in either
    order. *)
Theorem updates_accumulate_and_commute env1 env2 s m a1 d1 e1 a2 d2 e2 :
  metricsAt
    (exec env2 (UpdateModelMetrics m a2 d2 e2)
       (exec env1 (UpdateModelMetrics m a1 d1 e1) s)) m
  = {| encryptedAccuracy :=
         FHE_add (FHE_add (encryptedAccuracy (metricsAt s m)) a1) a2;
       encryptedDriftScore :=
         FHE_add (FHE_add (encryptedDriftScore (metricsAt s m)) d1) d2;
       encryptedErrorRate :=
         FHE_add (FHE_add (encryptedErrorRate (metricsAt s m)) e1) e2 |} /\
  (forall m', m' <> m ->
     exec env2 (UpdateModelMetrics m' a2 d2 e2)
       (exec env1 (UpdateModelMetrics m a1 d1 e1) s)
     = exec env1 (UpdateModelMetrics m a1 d1 e1)
         (exec env2 (UpdateModelMetrics m' a2 d2 e2) s)).
Proof.
  unfold exec. split.
  - rewrite !updateModelMetrics_eq. by rewrite !metricsAt_set_metrics_eq.
  - intros m' Hne. rewrite !updateModelMetrics_eq.
    rewrite !metricsAt_set_metrics_ne by done.
    unfold set_metrics; simpl. f_equal. by apply insert_insert_ne.
Qed.

(** X13. The metrics path works for every non-empty model identifier,
    monitored or not: after requestModelMetricsDecryption, a callback for
    the identifier the oracle answered, with a verifying proof and a
    payload that decodes, succeeds, emits only the library's
    DecryptionFulfilled for the request and leaves the storage as the
    request left it; with a model identifier of at least one byte the
    only failures left are a rejected proof and a malformed payload. *)
Theorem metrics_round_trip env env' s m cleartexts proof :
  0 < Z.of_nat (length (String.list_byte_of_string m)) ->
  let s1 := exec env (RequestModelMetricsDecryption m) s in
  (FHE_verifySignatures (oracle_requestId env) cleartexts proof = true ->
   (exists triple, abi_decode_uint32x3 cleartexts = Ok triple) ->
   transact env' (DecryptModelMetrics (oracle_requestId env) cleartexts proof) s1
   = Ok (s1, [DecryptionFulfilled (oracle_requestId env)])) /\
  (forall r,
     transact env' (DecryptModelMetrics (oracle_requestId env) cleartexts proof) s1
     = Reverted r ->
     r = InvalidKMSSignatures \/ r = AbiDecodeRevert).
Proof.
  intros Hlen s1.
  assert (Hs1 : s1 = set_requestToModelId (oracle_requestId env) m s).
  { subst s1. unfold exec. by rewrite requestModelMetricsDecryption_eq. }
  assert (Hstored : requestToModelIdAt s1 (oracle_requestId env) = m).
  { rewrite Hs1. unfold_storage. by rewrite lookup_insert_eq. }
  rewrite decryptModelMetrics_eq, Hstored.
  destruct (Z.ltb_spec 0 (Z.of_nat (length (String.list_byte_of_string m)))); [|lia].
  split.
  - intros -> [triple ->]. done.
  - intros r. destruct (FHE_verifySignatures _ _ _); [|intros [= <-]; by left].
    destruct (abi_decode_uint32x3 cleartexts) as [triple|r'] eqn:Hdecode; [done|].
    intros [= <-]. right. by apply (abi_decode_uint32x3_Reverted cleartexts).
Qed.

End Aggregates.

(** X11 on the reference data: "n" is new in [revealed], so the update
    made for it before its first record is lost. *)
Lemma submission_resets_new_aggregate_witness :
  metricsAt
    (exec (Reference.env 0) Reference.second_submission
       (exec (Reference.env 0) Reference.early_update Reference.revealed)) "n"
  = Reference.metrics_of 1 1 1 /\
  metricsAt (exec (Reference.env 0) Reference.second_submission Reference.revealed) "m"
  = metricsAt Reference.revealed "m".
Proof.
  assert (Hroom : predictionCount Reference.revealed < uint_max 256)
    by (vm_compute; reflexivity).
  destruct (submission_resets_new_aggregate (H := Reference.collaborators)
              (Reference.env 0) (Reference.env 0) Reference.revealed "n"
              (Reference.handle 10) (Reference.handle 80) (Reference.handle 70)
              (Reference.handle 5) (Reference.handle 6) (Reference.handle 7) Hroom)
    as (Hothers & _ & Hnew).
  split.
  - apply Hnew. reflexivity.
  - apply Hothers. discriminate.
Defined.

(** X12 on the reference data: updates for "ghost" and "m" in either
    order. *)
Lemma updates_accumulate_and_commute_witness :
  exec (Reference.env 0) Reference.m_update
    (exec (Reference.env 0) Reference.ghost_update Reference.submitted)
  = exec (Reference.env 0) Reference.ghost_update
      (exec (Reference.env 0) Reference.m_update Reference.submitted).
Proof.
  destruct (updates_accumulate_and_commute (H := Reference.collaborators)
              (Reference.env 0) (Reference.env 0) Reference.submitted "ghost"
              (Reference.handle 5) (Reference.handle 6) (Reference.handle 7)
              (Reference.handle 1) (Reference.handle 2) (Reference.handle 3))
    as [_ Hcommute].
  apply (Hcommute "m"). discriminate.
Defined.

(** X13 on the reference data: the metrics callback of request 8 for
    "m". *)
Lemma metrics_round_trip_witness :
  transact (Reference.env 0)
    (DecryptModelMetrics 8 Reference.metrics_cleartexts
       (Reference.sign 8 Reference.metrics_cleartexts)) Reference.metrics_requested
  = Ok (Reference.metrics_requested, [DecryptionFulfilled 8]).
Proof.
  assert (Hlen : 0 < Z.of_nat (length (String.list_byte_of_string "m")))
    by (vm_compute; reflexivity).
  destruct (metrics_round_trip (Reference.env 8) (Reference.env 0) Reference.revealed
              "m" Reference.metrics_cleartexts
              (Reference.sign 8 Reference.metrics_cleartexts) Hlen) as [Hok _].
  apply Hok; [reflexivity|]. exists (3, 2, 1). reflexivity.
Defined.

Section ScorePolicy.

Lemma calculatePerformanceScore_Reverted input prediction groundTruth r :
  calculatePerformanceScore input prediction groundTruth = Reverted r -> r = Panic 17.
Proof.
  unfold calculatePerformanceScore, checked_sub, checked_mul, checked_div.
  cbv [mbind result_bind].
  assert (Hnz : ((if input >? 0 then input else 1) =? 0) = false).
  { apply Z.eqb_neq. destruct (Z.gtb_spec input 0); lia. }
  destruct (prediction >? groundTruth).
  - destruct (groundTruth <=? prediction); [|by intros [= <-]].
    destruct (_ <=? uint_max 32); [|by intros [= <-]].
    rewrite Hnz. destruct (_ <=? 100); [done|by intros [= <-]].
  - destruct (prediction <=? groundTruth); [|by intros [= <-]].
    destruct (_ <=? uint_max 32); [|by intros [= <-]].
    rewrite Hnz. destruct (_ <=? 100); [done|by intros [= <-]].
Qed.

(** X14. The checked 32-bit arithmetic of calculatePerformanceScore fails
    only with the arithmetic panic.  It always fails when the absolute
    error exceeds 42949672, because error * 100 no longer fits in 32 bits,
    even when the input is large enough for the score to be between 0 and
    100; and it returns a score between 0 and 100 whenever the error is at
    most 42949672 and at most max(input, 1). *)
Theorem score_overflow_threshold input prediction groundTruth :
  (42949672 < Z.abs (prediction - groundTruth) ->
   calculatePerformanceScore input prediction groundTruth = Reverted (Panic 17)) /\
  (Z.abs (prediction - groundTruth) <= 42949672 ->
   Z.abs (prediction - groundTruth) <= Z.max input 1 ->
   exists score,
     calculatePerformanceScore input prediction groundTruth = Ok score /\
     0 <= score <= 100) /\
  (forall r,
     calculatePerformanceScore input prediction groundTruth = Reverted r ->
     r = Panic 17).
Proof.
  split; [|split].
  - intros Hbig.
    destruct (calculatePerformanceScore input prediction groundTruth) as [score|r]
      eqn:Hscore.
    + apply calculatePerformanceScore_Ok in Hscore as (Hfit & _).
      unfold uint_max in Hfit. simpl in Hfit. lia.
    + by rewrite (calculatePerformanceScore_Reverted _ _ _ _ Hscore).
  - intros Hsmall Hle.
    exists (100 - Z.abs (prediction - groundTruth) * 100 / Z.max input 1).
    assert (Hq : Z.abs (prediction - groundTruth) * 100 / Z.max input 1 <= 100).
    { apply Z.div_le_upper_bound; lia. }
    assert (0 <= Z.abs (prediction - groundTruth) * 100 / Z.max input 1)
      by (apply Z.div_pos; lia).
    split; [|lia]. apply calculatePerformanceScore_Ok.
    unfold uint_max. simpl. split; [lia|done].
  - apply calculatePerformanceScore_Reverted.
Qed.

(** X15. The score depends only on the absolute error and on
    max(input, 1): it is the same when prediction and ground truth are
    swapped and when an input of 0 is replaced by 1.  It is 100 exactly
    when error * 100 is below max(input, 1), in particular for a perfect
    prediction; it does not increase when the error grows and does not
    decrease when the input grows. *)
Theorem score_symmetric_and_monotone input prediction groundTruth :
  calculatePerformanceScore input prediction groundTruth
  = calculatePerformanceScore input groundTruth prediction /\
  calculatePerformanceScore 0 prediction groundTruth
  = calculatePerformanceScore 1 prediction groundTruth /\
  calculatePerformanceScore input prediction prediction = Ok 100 /\
  (forall score,
     calculatePerformanceScore input prediction groundTruth = Ok score ->
     (score = 100 <-> Z.abs (prediction - groundTruth) * 100 < Z.max input 1)) /\
  (forall input' prediction' groundTruth' score score',
     calculatePerformanceScore input prediction groundTruth = Ok score ->
     calculatePerformanceScore input' prediction' groundTruth' = Ok score' ->
     Z.abs (prediction - groundTruth) <= Z.abs (prediction' - groundTruth') ->
     Z.max input' 1 <= Z.max input 1 ->
     score' <= score).
Proof.
  split; [|split; [|split; [|split]]].
  - destruct (calculatePerformanceScore input groundTruth prediction) as [score|r]
      eqn:Hswap.
    + apply calculatePerformanceScore_Ok.
      apply calculatePerformanceScore_Ok in Hswap.
      by replace (Z.abs (prediction - groundTruth))
        with (Z.abs (groundTruth - prediction)) by lia.
    + destruct (calculatePerformanceScore input prediction groundTruth) as [score|r']
        eqn:Hhere.
      * apply calculatePerformanceScore_Ok in Hhere.
        replace (Z.abs (prediction - groundTruth))
          with (Z.abs (groundTruth - prediction)) in Hhere by lia.
        apply calculatePerformanceScore_Ok in Hhere. congruence.
      * by rewrite (calculatePerformanceScore_Reverted _ _ _ _ Hhere),
          (calculatePerformanceScore_Reverted _ _ _ _ Hswap).
  - done.
  - apply calculatePerformanceScore_Ok. rewrite Z.sub_diag. simpl.
    unfold uint_max. simpl. rewrite Z.div_0_l by lia. lia.
  - intros score (_ & _ & ->)%calculatePerformanceScore_Ok.
    assert (0 <= Z.abs (prediction - groundTruth) * 100) by lia.
    assert (0 < Z.max input 1) by lia.
    split.
    + intros Hfull.
      assert (Hzero : Z.abs (prediction - groundTruth) * 100 / Z.max input 1 = 0) by lia.
      apply Z.div_small_iff in Hzero; lia.
    + intros Hsmall. rewrite Z.div_small by lia. lia.
  - intros input' prediction' groundTruth' score score'
      (_ & _ & ->)%calculatePerformanceScore_Ok
      (_ & _ & ->)%calculatePerformanceScore_Ok Herror Hinput.
    assert (Z.abs (prediction - groundTruth) * 100 / Z.max input 1
            <= Z.abs (prediction' - groundTruth') * 100 / Z.max input' 1); [|lia].
    transitivity (Z.abs (prediction - groundTruth) * 100 / Z.max input' 1).
    + apply Z.div_le_compat_l; lia.
    + apply Z.div_le_mono; lia.
Qed.

End ScorePolicy.

(** X14 at the overflow boundary: an error of 42949673 on an input of
    4000000000 reverts although the score would be 99, and an error of
    42949672 does not. *)
Lemma score_overflow_threshold_witness :
  calculatePerformanceScore 4000000000 42949673 0 = Reverted (Panic 17) /\
  exists score,
    calculatePerformanceScore 4000000000 42949672 0 = Ok score /\ 0 <= score <= 100.
Proof.
  split.
  - apply (score_overflow_threshold 4000000000 42949673 0). vm_compute. reflexivity.
  - apply (score_overflow_threshold 4000000000 42949672 0);
      vm_compute; discriminate.
Defined.

(** X15 on examples: an error of 5 on an input of 1000 still scores 100,
    and the score of (100, 90, 92) is at least that of (50, 80, 90). *)
Lemma score_symmetric_and_monotone_witness :
  (98 = 100 <-> Z.abs (90 - 92) * 100 < Z.max 100 1) /\ 80 <= 98.
Proof.
  destruct (score_symmetric_and_monotone 100 90 92) as (_ & _ & _ & Hfull & Hmono).
  split.
  - apply Hfull. reflexivity.
  - apply (Hmono 50 80 90 98 80); try reflexivity; vm_compute; discriminate.
Defined.

Section Payload.
Context `{Collaborators}.

Lemma be_value_from_nonneg bs acc :
  0 <= acc ->
  0 <= fold_left (fun acc b => acc * 256 + Z.of_N (Byte.to_N b)) bs acc.
Proof.
  revert acc. induction bs as [|b bs IH]; intros acc Hacc; simpl; [done|].
  apply IH. lia.
Qed.

Lemma abi_word_app k data extra :
  (32 * k + 32 <= length data)%nat ->
  abi_word k (data ++ extra) = abi_word k data.
Proof.
  intros Hlen. unfold abi_word.
  rewrite drop_app_le by lia.
  rewrite take_app_le by (rewrite length_drop; lia). done.
Qed.

(** X16. The payload of a callback is read as three 32-byte big-endian
    words: a payload shorter than 96 bytes makes both callbacks revert;
    the three values a successful decoding returns lie between 0 and
    2^32 - 1; and bytes after the first 96 are ignored. *)
Theorem callback_payload_format cleartexts :
  (Z.of_nat (length cleartexts) < 96 ->
   forall env s requestId proof,
     (exists r, transact env (ProcessPerformanceAnalysis requestId cleartexts proof) s
                = Reverted r) /\
     (exists r, transact env (DecryptModelMetrics requestId cleartexts proof) s
                = Reverted r)) /\
  (forall a b c,
     abi_decode_uint32x3 cleartexts = Ok (a, b, c) ->
     0 <= a <= uint_max 32 /\ 0 <= b <= uint_max 32 /\ 0 <= c <= uint_max 32) /\
  (96 <= Z.of_nat (length cleartexts) ->
   forall extra,
     abi_decode_uint32x3 (cleartexts ++ extra) = abi_decode_uint32x3 cleartexts).
Proof.
  split; [|split].
  - intros Hshort env s requestId proof.
    assert (Hdecode : abi_decode_uint32x3 cleartexts = Reverted AbiDecodeRevert).
    { unfold abi_decode_uint32x3.
      by destruct (Z.ltb_spec (Z.of_nat (length cleartexts)) 96); [|lia]. }
    rewrite processPerformanceAnalysis_eq, decryptModelMetrics_eq, Hdecode.
    cbv zeta. split; repeat case_match; eauto.
  - intros a b c. unfold abi_decode_uint32x3.
    destruct (Z.of_nat (length cleartexts) <? 96); [done|].
    destruct (Z.leb_spec (abi_word 0 cleartexts) (uint_max 32)); [|done].
    destruct (Z.leb_spec (abi_word 1 cleartexts) (uint_max 32)); [|done].
    destruct (Z.leb_spec (abi_word 2 cleartexts) (uint_max 32)); [|done].
    simpl. intros [= <- <- <-].
    unfold abi_word, be_value in *.
    repeat split; try done; by apply be_value_from_nonneg.
  - intros Hlong extra. unfold abi_decode_uint32x3.
    rewrite !abi_word_app by lia.
    rewrite length_app.
    destruct (Z.ltb_spec (Z.of_nat (length cleartexts)) 96); [lia|].
    destruct (Z.ltb_spec (Z.of_nat (length cleartexts + length extra)) 96); [lia|].
    done.
Qed.

End Payload.

(** X16 on the reference data: an empty payload is refused, and a
    trailing byte does not change what is decoded. *)
Lemma callback_payload_format_witness :
  (exists r,
     transact (Reference.env 0)
       (ProcessPerformanceAnalysis 7 [] (Reference.sign 7 [])) Reference.requested
     = Reverted r) /\
  abi_decode_uint32x3 (Reference.cleartexts ++ [x01]) = Ok (100, 90, 92).
Proof.
  split.
  - destruct (callback_payload_format (H := Reference.collaborators) [])
      as [Hshort _].
    apply Hshort. vm_compute. reflexivity.
  - destruct (callback_payload_format (H := Reference.collaborators)
                Reference.cleartexts) as (_ & _ & Hlong).
    rewrite Hlong; [reflexivity|]. vm_compute. discriminate.
Defined.

(** * The dashboard's list view *)

Section DashboardList.
Context {PerformanceMetric : Type}.
Implicit Types l : list PerformanceMetric.

Lemma totalPages_bounds l :
  0 <= Dashboard.totalPages l /\
  Z.of_nat (length l) <= 5 * Dashboard.totalPages l < Z.of_nat (length l) + 5.
Proof.
  unfold Dashboard.totalPages, Dashboard.itemsPerPage.
  pose proof (Z.div_mod (Z.of_nat (length l) + 5 - 1) 5).
  pose proof (Z.mod_pos_bound (Z.of_nat (length l) + 5 - 1) 5).
  lia.
Qed.

Lemma currentMetrics_chunk l (k : nat) :
  Dashboard.currentMetrics l (Z.of_nat (S k)) = take 5 (drop (5 * k) l).
Proof.
  unfold Dashboard.currentMetrics, Dashboard.slice, Dashboard.indexOfFirstItem,
    Dashboard.indexOfLastItem, Dashboard.itemsPerPage.
  destruct (Z.ltb_spec (Z.of_nat (S k) * 5 - 5) 0); [lia|].
  destruct (Z.ltb_spec (Z.of_nat (S k) * 5) 0); [lia|].
  destruct (decide (5 * k + 5 <= length l)%nat) as [Hfull|Hpart].
  - rewrite !Z.min_l by lia.
    replace (Z.to_nat (Z.of_nat (S k) * 5 - (Z.of_nat (S k) * 5 - 5))) with 5%nat by lia.
    replace (Z.to_nat (Z.of_nat (S k) * 5 - 5)) with (5 * k)%nat by lia. done.
  - destruct (decide (5 * k <= length l)%nat) as [Hstart|Hbeyond].
    + rewrite (Z.min_l (Z.of_nat (S k) * 5 - 5)), (Z.min_r (Z.of_nat (S k) * 5)) by lia.
      replace (Z.to_nat (Z.of_nat (S k) * 5 - 5)) with (5 * k)%nat by lia.
      rewrite !take_ge by (rewrite length_drop; lia). done.
    + rewrite !Z.min_r by lia. rewrite Z.sub_diag.
      change (Z.to_nat 0) with 0%nat.
      rewrite take_0, (drop_ge l (5 * k)) by lia. done.
Qed.

Lemma pages_up_to l (n : nat) :
  concat (map (Dashboard.currentMetrics l) (seqZ 1 (Z.of_nat n))) = take (5 * n) l.
Proof.
  induction n as [|n IH].
  - done.
  - rewrite seqZ_S, map_app, concat_app, IH.
    change (concat (map (Dashboard.currentMetrics l) [1 + Z.of_nat n]))
      with (Dashboard.currentMetrics l (1 + Z.of_nat n) ++ []).
    rewrite app_nil_r.
    replace (1 + Z.of_nat n) with (Z.of_nat (S n)) by lia.
    rewrite currentMetrics_chunk, take_take_drop. f_equal. lia.
Qed.

(** X17. The pages 1 .. totalPages of the list view partition the
    filtered list: shown one after the other they are the list itself,
    every page before the last has exactly five metrics, and the last has
    between one and five. *)
Theorem pages_partition_list l :
  concat (map (Dashboard.currentMetrics l) (seqZ 1 (Dashboard.totalPages l))) = l /\
  (forall p, 1 <= p <= Dashboard.totalPages l ->
     (1 <= length (Dashboard.currentMetrics l p) <= 5)%nat /\
     (p < Dashboard.totalPages l ->
      length (Dashboard.currentMetrics l p) = 5%nat)).
Proof.
  pose proof (totalPages_bounds l) as (Hn & Hlow & Hhigh).
  split.
  - rewrite <- (Z2Nat.id (Dashboard.totalPages l)) by done.
    rewrite pages_up_to. apply take_ge. lia.
  - intros p Hp.
    replace p with (Z.of_nat (S (Z.to_nat (p - 1)))) by lia.
    rewrite currentMetrics_chunk, length_take, length_drop.
    split; [lia|]. intros Hnotlast. lia.
Qed.

(** X18. With the list fixed, the two pagination buttons keep the current
    page within 1 .. totalPages.  A current page beyond totalPages, left
    over from a longer list, shows no metric at all: the list section then
    renders an empty set of cards, and when at most five metrics match it
    renders no pagination control either; the Next button only moves
    further away. *)
Theorem page_navigation l p :
  (1 <= p <= Dashboard.totalPages l ->
   1 <= Dashboard.previous p <= Dashboard.totalPages l /\
   1 <= Dashboard.next l p <= Dashboard.totalPages l) /\
  (Dashboard.totalPages l < p ->
   Dashboard.currentMetrics l p = [] /\
   Dashboard.next l p = p + 1 /\
   (l <> [] ->
    Dashboard.metricsList l p = Dashboard.Cards [] (Dashboard.totalPages l >? 1)) /\
   (l <> [] -> (length l <= 5)%nat ->
    Dashboard.metricsList l p = Dashboard.Cards [] false)).
Proof.
  pose proof (totalPages_bounds l) as (Hn & Hlow & Hhigh).
  split.
  - intros Hp. unfold Dashboard.previous, Dashboard.next.
    destruct (Z.eqb_spec p 1); destruct (Z.eqb_spec p (Dashboard.totalPages l)); lia.
  - intros Hstale.
    assert (Hempty : Dashboard.currentMetrics l p = []).
    { replace p with (Z.of_nat (S (Z.to_nat (p - 1)))) by lia.
      rewrite currentMetrics_chunk, drop_ge by lia. done. }
    assert (Hnonempty : l <> [] -> (Z.of_nat (length l) =? 0) = false).
    { intros Hl. apply Z.eqb_neq. destruct l; [done|]. simpl. lia. }
    split; [done|]. split; [|split].
    + unfold Dashboard.next. destruct (Z.eqb_spec p (Dashboard.totalPages l)); lia.
    + intros Hl. unfold Dashboard.metricsList. by rewrite (Hnonempty Hl), Hempty.
    + intros Hl Hfew. unfold Dashboard.metricsList.
      rewrite (Hnonempty Hl), Hempty.
      destruct (Z.gtb_spec (Dashboard.totalPages l) 1); [lia|done].
Qed.

(** X19. The three statistics counters never exceed the total together,
    and they add up to the total exactly when every metric has one of the
    statuses "normal", "warning" and "critical"; a metric stored with any
    other status is counted in the total only. *)
Theorem status_counters_cover (status : PerformanceMetric -> string) l :
  (Dashboard.normalCount status l + Dashboard.warningCount status l
   + Dashboard.criticalCount status l <= length l)%nat /\
  ((Dashboard.normalCount status l + Dashboard.warningCount status l
    + Dashboard.criticalCount status l = length l)%nat <->
   Forall (fun m => status m = "normal" \/ status m = "warning"
                    \/ status m = "critical") l).
Proof.
  unfold Dashboard.normalCount, Dashboard.warningCount, Dashboard.criticalCount.
  induction l as [|m l [IHle IHiff]]; simpl.
  - split; [lia|]. split; [constructor|done].
  - destruct (String.eqb_spec (status m) "normal") as [Hn|Hn];
      destruct (String.eqb_spec (status m) "warning") as [Hw|Hw];
      destruct (String.eqb_spec (status m) "critical") as [Hc|Hc];
      try congruence; simpl.
    all: split; [lia|].
    all: rewrite Forall_cons.
    1-3: split; [intros Hsum; split; [auto|apply IHiff; lia]
                |intros [_ Hall]; apply IHiff in Hall; lia].
    split; [lia|]. intros [[|[|]] _]; done.
Qed.

End DashboardList.

(** X17 on a list of seven: two pages, of five and two. *)
Lemma pages_partition_list_witness :
  length (Dashboard.currentMetrics [1; 2; 3; 4; 5; 6; 7] 1) = 5%nat /\
  (1 <= length (Dashboard.currentMetrics [1; 2; 3; 4; 5; 6; 7] 2) <= 5)%nat.
Proof.
  destruct (pages_partition_list [1; 2; 3; 4; 5; 6; 7]) as [_ Hpages].
  split.
  - apply (Hpages 1); vm_compute; (split; discriminate) || reflexivity.
  - apply (Hpages 2). vm_compute. split; discriminate.
Defined.

(** X18 on the reference case: page 3 of a seven-metric list, after
    the search has narrowed the list to two metrics. *)
Lemma page_navigation_witness :
  (1 <= Dashboard.next [1; 2; 3; 4; 5; 6; 7] 1 <= Dashboard.totalPages [1; 2; 3; 4; 5; 6; 7]) /\
  Dashboard.metricsList [6; 7] 3 = Dashboard.Cards [] false.
Proof.
  split.
  - apply (page_navigation [1; 2; 3; 4; 5; 6; 7] 1). vm_compute. split; discriminate.
  - apply (page_navigation [6; 7] 3).
    + vm_compute. reflexivity.
    + discriminate.
    + vm_compute. lia.
Defined.

Section Growth.
Context `{Collaborators}.

Lemma exec_monitored_prefix env c s :
  monitoredModels s `prefix_of` monitoredModels (exec env c s).
Proof.
  by_call c; unfold_storage. by apply prefix_app_r.
Qed.

(** X20. The registry only grows: along every sequence of transactions
    the monitored list is only extended at its end, so a model keeps its
    position in it; the counter does not decrease; and the record read
    under an identifier up to the counter is the same afterwards. *)
Theorem registry_only_grows tr s :
  monitoredModels s `prefix_of` monitoredModels (run tr s) /\
  predictionCount s <= predictionCount (run tr s) /\
  (forall i, i <= predictionCount s -> predictionAt (run tr s) i = predictionAt s i) /\
  (forall k m, monitoredModels s !! k = Some m ->
     monitoredModels (run tr s) !! k = Some m).
Proof.
  assert (Hprefix : monitoredModels s `prefix_of` monitoredModels (run tr s)).
  { revert s. induction tr as [|[env c] tr IH]; intros s; simpl; [done|].
    etrans; [apply exec_monitored_prefix|apply IH]. }
  split; [done|]. split; [apply run_predictionCount|].
  split; [intros i Hi; by apply run_predictionAt|].
  intros k m Hk. by apply (prefix_lookup_Some _ _ _ _ Hk).
Qed.

Lemma effects_of_recorded env c s i m t :
  PredictionRecorded i m t ∈ effects_of env c s ->
  i = predictionCount s + 1 /\
  predictionCount (exec env c s) = predictionCount s + 1 /\
  id (predictionAt (exec env c s) i) = i /\
  modelId (predictionAt (exec env c s) i) = m /\
  timestamp (predictionAt (exec env c s) i) = t.
Proof.
  unfold effects_of. by_call c.
  all: try (intros Hin; by apply not_elem_of_nil in Hin).
  all: try (intros [Hin|Hin]%elem_of_cons; [done|];
            apply elem_of_cons in Hin as [Hin|Hin]; [done|];
            by apply not_elem_of_nil in Hin).
  all: try (intros [Hin|Hin]%elem_of_cons; [done|]; by apply not_elem_of_nil in Hin).
  all: intros [[= -> -> ->]|Hin]%elem_of_cons; [|by apply not_elem_of_nil in Hin].
  all: unfold_storage; by rewrite lookup_insert_eq.
Qed.

(** X21. Every PredictionRecorded event of a sequence of transactions is
    backed by storage: the identifier it announces was allocated by that
    sequence, and the record stored under it at the end carries that
    identifier, the announced model and the announced timestamp. *)
Theorem recorded_events_match_records tr s i m t :
  PredictionRecorded i m t ∈ run_log tr s ->
  predictionCount s < i <= predictionCount (run tr s) /\
  id (predictionAt (run tr s) i) = i /\
  modelId (predictionAt (run tr s) i) = m /\
  timestamp (predictionAt (run tr s) i) = t.
Proof.
  revert s. induction tr as [|[env c] tr IH]; intros s; simpl.
  - intros Hin. by apply not_elem_of_nil in Hin.
  - pose proof (exec_predictionCount env c s) as Hstep.
    pose proof (run_predictionCount tr (exec env c s)) as Hrest.
    intros [Hhere|Hlater]%elem_of_app.
    + apply effects_of_recorded in Hhere as (-> & Hcount & Hid & Hmodel & Htime).
      rewrite run_predictionAt by lia. split; [lia|done].
    + destruct (IH _ Hlater) as (Hrange & Hfields). split; [lia|done].
Qed.

End Growth.

(** X21 on the reference data: the event of the first submission. *)
Lemma recorded_events_match_records_witness :
  modelId (predictionAt (run Reference.history initial) 1) = "m" /\
  timestamp (predictionAt (run Reference.history initial) 1) = 1700000000.
Proof.
  assert (Hevent : PredictionRecorded 1 "m" 1700000000
                   ∈ run_log Reference.history initial).
  { apply elem_of_cons. left. reflexivity. }
  destruct (recorded_events_match_records _ _ _ _ _ Hevent) as (_ & _ & Hmodel & Htime).
  split; [exact Hmodel|exact Htime].
Defined.

(** X20 on the reference data: "m" is still first in the monitored list
    after the later transactions, which append "n". *)
Lemma registry_only_grows_witness :
  monitoredModels (run Reference.later Reference.revealed) !! 0%nat = Some "m".
Proof.
  destruct (registry_only_grows Reference.later Reference.revealed)
    as (_ & _ & _ & Hkept).
  apply Hkept. reflexivity.
Defined.

(** X19 on three metrics, one of them with a status outside the three. *)
Lemma status_counters_cover_witness :
  (Dashboard.normalCount (fun m : string => m) ["normal"; "degraded"; "critical"]
   + Dashboard.warningCount (fun m : string => m) ["normal"; "degraded"; "critical"]
   + Dashboard.criticalCount (fun m : string => m) ["normal"; "degraded"; "critical"]
   <= 3)%nat.
Proof.
  exact (proj1 (status_counters_cover (fun m : string => m)
                  ["normal"; "degraded"; "critical"])).
Defined.
